(** * Village population dashboard: the synthesis engine, verified

    A shallow embedding of the parts of the repository that carry the
    algorithm: [pop_utils.py] (the village-marriage mapping), [config.py]
    (constants and the start-up check), [database.py] (the base-data
    loader, [generate_database] and [load_db_from_history]), the handlers
    of the two "Generate" buttons of [ui.py] and [delete_log_entries] of
    [utils.py].

    Python integers are unbounded, so they are [Z]; Python's [//] and [%]
    round towards minus infinity, which is [Z.div] and [Z.modulo]
    (stdpp's [`div`] and [`mod`]).  An exception is a value of [exn] carried
    by [Raise].  The columns of the table [population] are DuckDB INTEGER
    columns, 32 bits wide: a value that does not fit makes the INSERT
    fail, which is written out in [insert_into]. *)

From stdpp Require Import gmap strings list sorting.
From Stdlib Require Import ZArith Lia.

Open Scope Z_scope.

(** ** Exceptions and results *)

(** [ValueError] and [FileNotFoundError] are Python's.  [ArrowException] is
    pyarrow's ([ArrowTypeError] or [ArrowInvalid], by the order of the
    cells), raised by [df.to_parquet].  [InvalidInputException] and
    [ConversionException] are DuckDB's: the first is what an exception
    raised inside a Python UDF becomes, the second an integer that does
    not fit its column.  [StorageError] stands for any other failure of a
    DuckDB call (I/O, catalog). *)
Inductive exn : Type :=
  | ValueError (msg : string)
  | FileNotFoundError (msg : string)
  | ArrowException (msg : string)
  | InvalidInputException (msg : string)
  | ConversionException (msg : string)
  | StorageError (msg : string).

Inductive result (A : Type) : Type :=
  | Ok (a : A)
  | Raise (e : exn).
Arguments Ok {A} a.
Arguments Raise {A} e.

Definition is_ok {A} (r : result A) : bool :=
  match r with Ok _ => true | Raise _ => false end.

(** ** pop_utils.py *)

Module PopUtils.

(** [get_marriage_to_village_id], statement by statement. *)
Definition get_marriage_to_village_id (village_id counter : Z) : result Z :=
  if negb (1 <=? village_id) then
    Raise (ValueError "VILLAGE_ID must be 1 or more.")
  else if negb (1 <=? counter) then
    Raise (ValueError "COUNTER must be 1 or more.")
  else
    let counter := ((counter - 1) `mod` 196) + 1 in
    let block := (counter - 1) `div` 28 in
    let base_add := 1 + 4 * block in
    let pos := counter - 28 * block in
    let add :=
      if (pos `mod` 4 =? 1) || (pos `mod` 4 =? 2) then base_add
      else base_add + 2 in
    let base := ((village_id - 1) `div` 28) * 28 in
    let mod_ := 28 in
    let local_id := village_id - base in
    let result := ((local_id + add - 1) `mod` mod_) + 1 + base in
    Ok result.

(** The seven steps of section 4.2 of the specification, written from its
    words; it is compared with the code in [get_marriage_refines_spec]. *)
Definition map_marriage_spec (village_id counter : Z) : Z :=
  let c := ((counter - 1) `mod` 196) + 1 in              (* step 1 *)
  let block := (c - 1) `div` 28 in                        (* step 2 *)
  let base_add := 1 + 4 * block in
  let pos := c - 28 * block in                            (* step 3 *)
  let add :=                                              (* step 4 *)
    if bool_decide (pos `mod` 4 ∈ [1; 2]) then base_add else base_add + 2 in
  let super_base := ((village_id - 1) `div` 28) * 28 in   (* step 5 *)
  let local_id := village_id - super_base in              (* step 6 *)
  ((local_id + add - 1) `mod` 28) + 1 + super_base.       (* step 7 *)

End PopUtils.

Import PopUtils.


(** ** config.py *)

Module Config.
Definition BASE_EXCEL : string := "FINAL_POPULATION.xlsx".
Definition BASE_PARQUET : string := "base_population.parquet".
Definition USER_FILE : string := "users.json".
Definition HISTORY_FILE : string := "user_history.json".
Definition LOG_FILE : string := "logs.json".

End Config.

Import Config.

(** ** The data the program keeps *)

(** A cell of the column [BIRTH_DATE] as pandas reads it: empty (NaN or
    NaT), a date, or text; [value] is the content as text. *)
Inductive cell : Type :=
  | EmptyCell
  | DateCell (value : string)
  | TextCell (value : string).

(** A row of a sheet of the Excel source.  The columns [COUNTER],
    [FAMILY_ID] and [PERSON_ID] hold integers. *)
Record source_row : Type := SourceRow {
  src_COUNTER : Z;
  src_FAMILY_ID : Z;
  src_PERSON_ID : Z;
  src_BIRTH_DATE : cell
}.

(** The Excel source: its sheets by name. *)
Definition workbook : Type := gmap string (list source_row).

(** A row of the normalised base dataframe (the parquet cache): the columns
    of the sheet and the two that [load_base_data] adds. *)
Record base_record : Type := BaseRecord {
  b_COUNTER : Z;
  b_FAMILY_ID : Z;
  b_PERSON_ID : Z;
  b_BIRTH_DATE : cell;
  b_BIRTH_DATE_SERIAL : option Z;
  b_Date_of_Birth : option string
}.

Inductive gender : Type := MALE | FEMALE.

(** The range of a DuckDB INTEGER (INT32) column. *)
Definition INT32_MIN : Z := -2147483648.
Definition INT32_MAX : Z := 2147483647.

Definition fits_int32 (z : Z) : bool :=
  (INT32_MIN <=? z) && (z <=? INT32_MAX).

(** A row of the table [population].  The seven INTEGER columns are held as
    [Z]; a row enters the table only through [insert_into], which refuses
    a value outside the range of INT32 ([row_fits_int32] below). *)
Record population_row : Type := PopulationRow {
  SERIAL_NO : Z;
  COUNTER : Z;
  FAMILY_ID : Z;
  PERSON_ID : Z;
  BIRTH_DATE : option Z;
  VILLAGE_ID : Z;
  GENDER : gender;
  Date_of_Birth : option string;
  MARRIED_TO_VILLAGE_ID : Z
}.

(** The cast of a selected row to the column types of the table succeeds:
    every INTEGER column holds NULL or a value of INT32. *)
Definition row_fits_int32 (r : population_row) : bool :=
  fits_int32 (SERIAL_NO r) && fits_int32 (COUNTER r) &&
  fits_int32 (FAMILY_ID r) && fits_int32 (PERSON_ID r) &&
  from_option fits_int32 true (BIRTH_DATE r) &&
  fits_int32 (VILLAGE_ID r) && fits_int32 (MARRIED_TO_VILLAGE_ID r).

(** The logical content of one DuckDB file: the sequence [seq] (its next
    value), the table [population] and whether [idx_village] exists. *)
Record database : Type := Database {
  db_seq : option Z;
  db_population : option (list population_row);
  db_idx_village : bool
}.

Definition empty_database : database := Database None None false.

(** An entry of [user_history.json]. *)
Record history_entry : Type := HistoryEntry {
  h_db_id : string;
  h_db_path : string;
  h_num_villages : Z;
  h_created_at : string
}.

(** A line of [logs.json]; the only action of this development is
    [GENERATE_DB], whose details are the village and record counts. *)
Record log_entry : Type := LogEntry {
  log_timestamp : string;
  log_user : string;
  log_action : string;
  log_villages : Z;
  log_records : Z
}.

(** What the page shows. *)
Inductive ui_event : Type :=
  | StError (msg : string)
  | StSuccessDb (path : string) (records : Z)
  | StBalloons
  | StDownloadButton (path : string) (content : database).

(** [st.session_state], the keys this code reads and writes. *)
Record session_state : Type := SessionState {
  s_username : string;
  s_db_path : option string;
  s_db_generated : bool;
  s_db_version : Z;
  s_num_villages : Z;
  s_db_id : option string;
  s_history : gmap string (list history_entry)
}.

(** The store the program runs against: the files of its working directory,
    the process-level cache of [st.cache_data], the session and the page. *)
Record world : Type := World {
  excel_file : option workbook;
  parquet_file : option (list base_record);
  db_files : gmap string database;
  history_file : option (gmap string (list history_entry));
  log_file : list log_entry;
  st_cache : option (list base_record);
  session : session_state;
  screen : list ui_event
}.

(** The DuckDB calls of [generate_database] that touch the file. *)
Inductive db_op : Type :=
  | OpConnect | OpCreateSequence | OpCreateTable | OpInsert
  | OpCreateIndex | OpCount | OpClose.

Global Instance db_op_eq_dec : EqDecision db_op.
Proof. solve_decision. Defined.

Definition db_op_name (op : db_op) : string :=
  match op with
  | OpConnect => "connect" | OpCreateSequence => "CREATE SEQUENCE"
  | OpCreateTable => "CREATE TABLE" | OpInsert => "INSERT"
  | OpCreateIndex => "CREATE INDEX" | OpCount => "SELECT COUNT"
  | OpClose => "close"
  end.

(** What one run takes from outside the program: the first eight characters
    of [str(uuid.uuid4())], the clock ([now n] is the formatted result of the
    [n]-th call of [datetime.now()] in the run), which storage call fails for
    a reason outside the program, if any, and how many values of the
    sequence an INSERT that fails on its data has drawn before it stops
    (DuckDB does not give them back). *)
Record env : Type := Env {
  uuid8 : string;
  now : nat → string;
  fails : db_op → bool;
  insert_consumed : nat
}.

(** ** The monad of the program: state and exceptions

    An exception leaves the store as it was when it was raised: Python has
    no rollback. *)

Definition M (A : Type) : Type := world → result A * world.

Definition ret {A} (a : A) : M A := λ w, (Ok a, w).
Definition bind {A B} (m : M A) (k : A → M B) : M B :=
  λ w, match m w with
       | (Ok a, w') => k a w'
       | (Raise e, w') => (Raise e, w')
       end.
Definition raise {A} (e : exn) : M A := λ w, (Raise e, w).
Definition get : M world := λ w, (Ok w, w).
Definition put (w : world) : M unit := λ _, (Ok tt, w).
Definition modify (f : world → world) : M unit := λ w, (Ok tt, f w).
Definition when (b : bool) (m : M unit) : M unit := if b then m else ret tt.

Declare Scope prog_scope.
Delimit Scope prog_scope with prog.
Notation "'let*' x := m 'in' k" := (bind m (λ x, k))
  (at level 10, x binder, m at level 100, k at level 200) : prog_scope.
Notation "m ;; k" := (bind m (λ _, k))
  (at level 100, k at level 200, right associativity) : prog_scope.
Open Scope prog_scope.

(** Record updates. *)
Definition set_parquet_file (v : option (list base_record)) (w : world) : world :=
  World (excel_file w) v (db_files w) (history_file w) (log_file w)
        (st_cache w) (session w) (screen w).
Definition set_db_files (v : gmap string database) (w : world) : world :=
  World (excel_file w) (parquet_file w) v (history_file w) (log_file w)
        (st_cache w) (session w) (screen w).
Definition set_history_file (v : option (gmap string (list history_entry)))
    (w : world) : world :=
  World (excel_file w) (parquet_file w) (db_files w) v (log_file w)
        (st_cache w) (session w) (screen w).
Definition set_log_file (v : list log_entry) (w : world) : world :=
  World (excel_file w) (parquet_file w) (db_files w) (history_file w) v
        (st_cache w) (session w) (screen w).
Definition set_st_cache (v : option (list base_record)) (w : world) : world :=
  World (excel_file w) (parquet_file w) (db_files w) (history_file w)
        (log_file w) v (session w) (screen w).
Definition set_session (v : session_state) (w : world) : world :=
  World (excel_file w) (parquet_file w) (db_files w) (history_file w)
        (log_file w) (st_cache w) v (screen w).
Definition show (e : ui_event) (w : world) : world :=
  World (excel_file w) (parquet_file w) (db_files w) (history_file w)
        (log_file w) (st_cache w) (session w) (screen w ++ [e]).

(** [os.remove] *)
Definition os_remove (p : string) (w : world) : world :=
  if decide (p = BASE_EXCEL) then
    World None (parquet_file w) (db_files w) (history_file w) (log_file w)
          (st_cache w) (session w) (screen w)
  else if decide (p = BASE_PARQUET) then set_parquet_file None w
  else if decide (p = HISTORY_FILE) then set_history_file None w
  else set_db_files (delete p (db_files w)) w.

(** [os.path.exists] on the paths the program asks about. *)
Definition path_exists (p : string) (w : world) : bool :=
  if decide (p = BASE_EXCEL) then bool_decide (is_Some (excel_file w))
  else if decide (p = BASE_PARQUET) then bool_decide (is_Some (parquet_file w))
  else if decide (p = HISTORY_FILE) then bool_decide (is_Some (history_file w))
  else bool_decide (is_Some (db_files w !! p)).

(** ** database.py *)

Module Database.
Section database.

(** pandas' date arithmetic is taken as given:
    [birth_date_serial x] is
    [(pd.to_datetime(x, errors='coerce') - pd.Timestamp("1899-12-30")).days]
    ([None] when the cell does not parse), and [date_of_birth n] is
    [(pd.Timestamp("1899-12-30") + pd.Timedelta(days=n)).strftime("%A, %B %d, %Y")]. *)
Context (birth_date_serial : string → option Z) (date_of_birth : Z → string).
Context (E : env).

(** [pd.read_excel(BASE_EXCEL, sheet_name=...)]: a workbook without the
    sheet makes pandas raise [ValueError]. *)
Definition read_excel (sheet_name : string) : M (list source_row) :=
  let* w := get in
  match excel_file w with
  | Some book =>
      match book !! sheet_name with
      | Some sheet => ret sheet
      | None =>
          raise (ValueError ("Worksheet named '" +:+ sheet_name +:+ "' not found"))
      end
  | None => raise (FileNotFoundError BASE_EXCEL)
  end.

Definition read_parquet : M (list base_record) :=
  let* w := get in
  match parquet_file w with
  | Some df => ret df
  | None => raise (FileNotFoundError BASE_PARQUET)
  end.

(** The two [df[...].apply(lambda ...)] columns: [pd.notna(x)] is false on
    an empty cell. *)
Definition normalise (r : source_row) : base_record :=
  let serial :=
    match src_BIRTH_DATE r with
    | EmptyCell => None
    | DateCell x | TextCell x => birth_date_serial x
    end in
  BaseRecord (src_COUNTER r) (src_FAMILY_ID r) (src_PERSON_ID r)
    (src_BIRTH_DATE r) serial (date_of_birth <$> serial).

Definition is_date (c : cell) : bool :=
  match c with DateCell _ => true | _ => false end.
Definition is_text (c : cell) : bool :=
  match c with TextCell _ => true | _ => false end.

(** A column that holds dates and text is an [object] column whose values
    have no common Arrow type. *)
Definition mixed_cells (column : list cell) : bool :=
  existsb is_date column && existsb is_text column.

(** [df.to_parquet(BASE_PARQUET)]: pyarrow converts the frame before the
    file is opened, so a column it cannot convert leaves no file. *)
Definition to_parquet (df : list base_record) : M unit :=
  if mixed_cells (b_BIRTH_DATE <$> df) then
    raise (ArrowException "Conversion failed for column BIRTH_DATE with type object")
  else modify (set_parquet_file (Some df)).

(** The body of [load_base_data]. *)
Definition load_base_data_body : M (list base_record) :=
  let* w := get in
  (if negb (path_exists BASE_PARQUET w) then
     if negb (path_exists BASE_EXCEL w) then
       raise (FileNotFoundError ("Missing base file: " +:+ BASE_EXCEL))
     else
       let* df := read_excel "FINAL_POPULATION" in
       let df := normalise <$> df in
       to_parquet df
   else ret tt);;
  read_parquet.

(** [@st.cache_data]: a stored result is returned without running the
    body.  The expiry of the entry ([ttl=3600]) is the environment
    resetting [st_cache] to [None] between two calls. *)
Definition load_base_data : M (list base_record) :=
  let* w := get in
  match st_cache w with
  | Some df => ret df
  | None =>
      let* df := load_base_data_body in
      modify (set_st_cache (Some df));;
      ret df
  end.

(** *** The INSERT ... SELECT of [generate_database] *)

(** [SELECT *, row_number() OVER () - 1 as idx FROM base_df] *)
Definition base_with_idx (base_df : list base_record) : list (Z * base_record) :=
  imap (λ i b, (Z.of_nat (S i) - 1, b)) base_df.

(** [SELECT range as vid FROM range(1, num_villages + 1)] *)
Definition villages (num_villages : Z) : list Z :=
  seqZ 1 (num_villages + 1 - 1).

(** [FROM villages v, base_with_idx b]: the cross join, in some order. *)
Definition cross_join (vs : list Z) (bs : list (Z * base_record))
    : list (Z * (Z * base_record)) :=
  list_prod vs bs.

(** [ORDER BY v.vid, b.idx] *)
Definition order_key_le (x y : Z * (Z * base_record)) : Prop :=
  x.1 < y.1 ∨ (x.1 = y.1 ∧ x.2.1 ≤ y.2.1).

Global Instance order_key_le_dec x y : Decision (order_key_le x y).
Proof. unfold order_key_le. apply _. Defined.

Definition order_by (j : list (Z * (Z * base_record)))
    : list (Z * (Z * base_record)) :=
  merge_sort order_key_le j.

(** The [CASE] of the select list.  DuckDB's [%] truncates towards zero:
    it is [Z.rem]. *)
Definition gender_case (idx vid : Z) : gender :=
  if Bool.eqb (Z.rem idx 2 =? 0) (Z.rem vid 2 =? 1) then MALE else FEMALE.

(** [con.create_function("get_marriage_id", get_marriage_to_village_id,
    ...)] with the default exception handling: an exception of the Python
    function leaves DuckDB as [InvalidInputException], whose text names
    it. *)
Definition exn_text (e : exn) : string :=
  match e with
  | ValueError msg => "ValueError: " +:+ msg
  | FileNotFoundError msg => "FileNotFoundError: " +:+ msg
  | ArrowException msg => "ArrowException: " +:+ msg
  | InvalidInputException msg => "InvalidInputException: " +:+ msg
  | ConversionException msg => "ConversionException: " +:+ msg
  | StorageError msg => "Error: " +:+ msg
  end.

Definition get_marriage_id (vid counter : Z) : result Z :=
  match get_marriage_to_village_id vid counter with
  | Ok married => Ok married
  | Raise e =>
      Raise (InvalidInputException
               ("Python exception occurred while executing the UDF: " +:+ exn_text e))
  end.

(** One row of the select list: the eight inserted columns, waiting for
    the [SERIAL_NO] that the column default supplies.  When the UDF raises,
    the statement fails with its exception. *)
Definition select_row (j : Z * (Z * base_record)) : result (Z → population_row) :=
  let '(vid, (idx, b)) := j in
  match get_marriage_id vid (b_COUNTER b) with
  | Raise e => Raise e
  | Ok married =>
      Ok (λ serial,
            PopulationRow serial (b_COUNTER b) (b_FAMILY_ID b) (b_PERSON_ID b)
              (b_BIRTH_DATE_SERIAL b) vid (gender_case idx vid)
              (b_Date_of_Birth b) married)
  end.

Fixpoint collect {A} (l : list (result A)) : result (list A) :=
  match l with
  | [] => Ok []
  | Ok a :: l' =>
      match collect l' with
      | Ok rest => Ok (a :: rest)
      | Raise e => Raise e
      end
  | Raise e :: _ => Raise e
  end.

Definition select_query (num_villages : Z) (base_df : list base_record)
    : result (list (Z → population_row)) :=
  collect (select_row <$>
             order_by (cross_join (villages num_villages) (base_with_idx base_df))).

(** [SERIAL_NO INTEGER DEFAULT nextval('seq')]: each inserted row takes the
    next value of the sequence, in the order of the select. *)
Fixpoint insert_rows (rows : list (Z → population_row)) (next : Z)
    : list population_row * Z :=
  match rows with
  | [] => ([], next)
  | r :: rows' =>
      let '(out, next') := insert_rows rows' (next + 1) in
      (r next :: out, next')
  end.

(** *** DuckDB statements on the file at [path] *)

(** A storage call.  It fails, the file as it was, when the environment
    says so; otherwise the statement [f] runs on the content of the file
    and says what it returns or raises and what it leaves in the file. *)
Definition db_exec {A} (path : string) (op : db_op)
    (f : database → result A * database) : M A :=
  λ w,
    if fails E op then (Raise (StorageError (db_op_name op)), w)
    else match db_files w !! path with
         | None => (Raise (StorageError "IO Error: no database file"), w)
         | Some db =>
             let '(r, db') := f db in
             (r, set_db_files (<[path := db']> (db_files w)) w)
         end.

(** [duckdb.connect(db_path)] creates the file when it is not there. *)
Definition duckdb_connect (path : string) : M unit :=
  λ w,
    if fails E OpConnect then (Raise (StorageError (db_op_name OpConnect)), w)
    else match db_files w !! path with
         | None => (Ok tt, set_db_files (<[path := empty_database]> (db_files w)) w)
         | Some _ => (Ok tt, w)
         end.

Definition create_sequence (db : database) : result unit * database :=
  match db_seq db with
  | Some _ => (Raise (StorageError "Catalog Error: seq already exists"), db)
  | None => (Ok tt, Database (Some 1) (db_population db) (db_idx_village db))
  end.

Definition create_table (db : database) : result unit * database :=
  match db_population db with
  | Some _ => (Raise (StorageError "Catalog Error: population already exists"), db)
  | None => (Ok tt, Database (db_seq db) (Some []) (db_idx_village db))
  end.

(** The INSERT.  The select list is computed first (the UDF runs below the
    sort), then each row takes its serial number and is cast to the column
    types.  A statement that fails on its data inserts no row, but the
    values of the sequence it has drawn are gone.  In a run of
    [generate_database] the table is the empty one just created, so the
    PRIMARY KEY is not violated. *)
Definition insert_into (num_villages : Z) (base_df : list base_record)
    (db : database) : result unit * database :=
  match db_seq db, db_population db with
  | Some next, Some rows =>
      let aborted :=
        Database (Some (next + Z.of_nat (insert_consumed E))) (Some rows)
          (db_idx_village db) in
      match select_query num_villages base_df with
      | Raise e => (Raise e, aborted)
      | Ok new =>
          let '(out, next') := insert_rows new next in
          if forallb row_fits_int32 out then
            (Ok tt, Database (Some next') (Some (rows ++ out)) (db_idx_village db))
          else
            (Raise (ConversionException
                      "value out of range for the destination type INT32"),
             aborted)
      end
  | _, _ => (Raise (StorageError "Catalog Error: population or seq missing"), db)
  end.

Definition create_index (db : database) : result unit * database :=
  match db_population db with
  | Some _ =>
      if db_idx_village db
      then (Raise (StorageError "Catalog Error: idx_village already exists"), db)
      else (Ok tt, Database (db_seq db) (db_population db) true)
  | None => (Raise (StorageError "Catalog Error: population missing"), db)
  end.

Definition count_population (db : database) : result Z * database :=
  match db_population db with
  | Some rows => (Ok (Z.of_nat (length rows)), db)
  | None => (Raise (StorageError "Catalog Error: population missing"), db)
  end.

(** [utils.load_json(HISTORY_FILE)]: the empty dict when the file is not
    there. *)
Definition load_history : M (gmap string (list history_entry)) :=
  let* w := get in ret (default ∅ (history_file w)).

(** [utils.save_json(history, HISTORY_FILE)] *)
Definition save_history (h : gmap string (list history_entry)) : M unit :=
  modify (set_history_file (Some h)).

(** [utils.log_user_action(username, "GENERATE_DB", ...)] *)
Definition log_user_action (user : string) (villages records : Z) : M unit :=
  modify (λ w, set_log_file
                 (log_file w ++ [LogEntry (now E 1) user "GENERATE_DB" villages records]) w).

Definition db_file_name (user id : string) : string :=
  "villages_" +:+ user +:+ "_" +:+ id +:+ ".db".

(** [generate_database(num_villages)] *)
Definition generate_database (num_villages : Z) : M unit :=
  let* w := get in
  let user := s_username (session w) in
  let id := uuid8 E in
  let path := db_file_name user id in
  (* Remove old file if exists *)
  when (path_exists path w) (modify (os_remove path));;
  let* base_df := load_base_data in
  duckdb_connect path;;
  (* con.register and con.create_function do not touch the file *)
  db_exec path OpCreateSequence create_sequence;;
  db_exec path OpCreateTable create_table;;
  db_exec path OpInsert (insert_into num_villages base_df);;
  db_exec path OpCreateIndex create_index;;
  let* total_records := db_exec path OpCount count_population in
  db_exec path OpClose (λ db, (Ok tt, db));;
  (* Update session state *)
  modify (λ w,
    let s := session w in
    set_session (SessionState (s_username s) (Some path) true (s_db_version s + 1)
                   num_villages (Some id) (s_history s)) w);;
  (* Save to user history *)
  let* h := load_history in
  let h := <[user := default [] (h !! user)
                      ++ [HistoryEntry id path num_villages (now E 0)]]> h in
  save_history h;;
  modify (λ w,
    let s := session w in
    set_session (SessionState (s_username s) (s_db_path s) (s_db_generated s)
                   (s_db_version s) (s_num_villages s) (s_db_id s) h) w);;
  (* Log Action *)
  log_user_action user num_villages total_records;;
  (* Final success message + download button *)
  modify (show (StSuccessDb path total_records));;
  modify (show StBalloons);;
  let* w := get in
  match db_files w !! path with
  | Some content => modify (show (StDownloadButton path content))
  | None => raise (FileNotFoundError path)
  end.

End database.
End Database.

(** ** config.py, the module body, and ui.py *)

Module Ui.
Section ui.

Context (birth_date_serial : string → option Z) (date_of_birth : Z → string).
Context (E : env).

(** The last statement of [config.py], run when the module is imported. *)
Definition config_import : M unit :=
  let* w := get in
  if negb (path_exists BASE_EXCEL w) then
    raise (FileNotFoundError ("Required file '" +:+ BASE_EXCEL +:+ "' not found!"))
  else ret tt.

Inductive button : Type := NoButton | GenerateDatabase | RegenerateSameSize.

Global Instance button_eq_dec : EqDecision button.
Proof. solve_decision. Defined.

(** The two buttons of the admin's first tab, lines 168 to 180 of
    [main_tabs]: the only place that calls [generate_database].  [num] is
    the value of the number input and [pressed] the button clicked in this
    rerun of the script.  What [main_tabs] runs before (the loader) and
    after (the tabs "SQL Explorer" and "Visualizations", which open the
    file the session points at) is not part of this definition. *)
Definition generate_buttons (num : Z) (pressed : button) : M unit :=
  when (bool_decide (pressed = GenerateDatabase))
    (if negb (num `mod` 28 =? 0) then
       modify (show (StError "Number of villages must be a multiple of 28!"))
     else Database.generate_database birth_date_serial date_of_birth E num);;
  when (bool_decide (pressed = RegenerateSameSize))
    (if negb (num `mod` 28 =? 0) then
       modify (show (StError "Number of villages must be a multiple of 28!"))
     else Database.generate_database birth_date_serial date_of_birth E num).

(** A start of the program: [main.py] imports [config] before anything
    else runs; [script] is what the program does after its imports. *)
Definition run_dashboard (script : M unit) : M unit :=
  config_import;;
  script.

End ui.
End Ui.

Import Database Ui.

(** ** Notions used in the statements *)

(** The base dataset of the data model: every counter is a positive
    integer. *)
Definition valid_base (base_df : list base_record) : Prop :=
  Forall (λ b, 1 ≤ b_COUNTER b) base_df.

(** The integers of a base record fit the INTEGER columns of the table. *)
Definition record_fits_int32 (b : base_record) : bool :=
  fits_int32 (b_COUNTER b) && fits_int32 (b_FAMILY_ID b) &&
  fits_int32 (b_PERSON_ID b) &&
  from_option fits_int32 true (b_BIRTH_DATE_SERIAL b).

Definition base_fits_int32 (base_df : list base_record) : Prop :=
  Forall (λ b, record_fits_int32 b = true) base_df.


(** The cyclic offset the code adds inside the super-block: the value of its
    variable [add], as a function of the counter. *)
Definition offset (counter : Z) : Z :=
  let c := ((counter - 1) `mod` 196) + 1 in
  let block := (c - 1) `div` 28 in
  let pos := c - 28 * block in
  if (pos `mod` 4 =? 1) || (pos `mod` 4 =? 2) then 1 + 4 * block
  else 1 + 4 * block + 2.

(** The village the code computes on valid arguments, in closed form. *)
Definition marriage_village (v c : Z) : Z :=
  ((v - ((v - 1) `div` 28) * 28 + offset c - 1) `mod` 28) + 1
  + ((v - 1) `div` 28) * 28.

(** The row written for village [v] and the base record [b] at 0-based
    position [idx], with serial number [serial]. *)
Definition expected_row (v idx : Z) (b : base_record) (serial : Z) : population_row :=
  PopulationRow serial (b_COUNTER b) (b_FAMILY_ID b) (b_PERSON_ID b)
    (b_BIRTH_DATE_SERIAL b) v (gender_case idx v) (b_Date_of_Birth b)
    (marriage_village v (b_COUNTER b)).

(** The rows the statement writes into an empty table whose sequence starts
    at [start], in closed form: village-major, base order inside a village,
    serial numbers counting up from [start]. *)
Definition expected_rows (n : Z) (base_df : list base_record) (start : Z)
    : list population_row :=
  imap (λ k x, expected_row x.1 x.2.1 x.2.2 (start + Z.of_nat k))
       (cross_join (villages n) (base_with_idx base_df)).

(** What a reader that opens the file at [path] finds in [population]. *)
Definition read_population (path : string) (w : world)
    : option (list population_row) :=
  db_files w !! path ≫= db_population.

(** The Generation Ledger, the session and the activity log are as they
    were. *)
Definition ledger_untouched (w w' : world) : Prop :=
  history_file w' = history_file w ∧ session w' = session w ∧
  log_file w' = log_file w.

(** ** A small deployment, for the examples *)

Definition example_base : list base_record :=
  [ BaseRecord 1 10 100 (DateCell "1982-02-19") (Some 30000)
      (Some "Friday, February 19, 1982");
    BaseRecord 2 10 101 EmptyCell None None;
    BaseRecord 3 11 102 (DateCell "2000-01-01") (Some 36526)
      (Some "Saturday, January 01, 2000") ].

(** A workbook whose sheet [FINAL_POPULATION] is empty. *)
Definition example_workbook : workbook := {[ "FINAL_POPULATION" := [] ]}.

Definition example_session : session_state :=
  SessionState "admin" None false 0 28 None ∅.

(** The Excel source and its parquet cache are there; nothing has been
    generated yet. *)
Definition example_world : world :=
  World (Some example_workbook) (Some example_base) ∅ None [] None
        example_session [].

(** The parquet cache is there, the Excel source is not. *)
Definition cache_only_world : world :=
  World None (Some example_base) ∅ None [] None example_session [].

Definition example_clock (n : nat) : string :=
  match n with O => "2025-01-01 10:00:00" | _ => "2025-01-01 10:00:01" end.

(** No storage call fails. *)
Definition example_env : env :=
  Env "1a2b3c4d" example_clock (λ _, false) 0%nat.

(** The INSERT fails. *)
Definition failing_env : env :=
  Env "1a2b3c4d" example_clock (λ op, bool_decide (op = OpInsert)) 0%nat.

Definition no_birth_date_serial (x : string) : option Z := None.
Definition no_date_of_birth (n : Z) : string := "".

Global Instance gender_eq_dec : EqDecision gender.
Proof. solve_decision. Defined.

(** [SELECT COUNT( * ) FROM population WHERE VILLAGE_ID = v AND GENDER = g],
    one cell of the per-village gender distribution that [ui.py] plots. *)
Definition gender_count (g : gender) (v : Z) (rows : list population_row) : Z :=
  Z.of_nat (length (filter (λ r, VILLAGE_ID r = v ∧ GENDER r = g) rows)).


(** ** database.py, continued: [load_db_from_history] *)

Module History.

(** What the sidebar shows. *)
Inductive sidebar_event : Type :=
  | SidebarSuccess (msg : string)
  | SidebarError (msg : string).

(** How a call leaves the script: it goes on, or [st.rerun()] restarts it. *)
Inductive script_flow : Type := Continue | Rerun.

(** [os.path.basename]: what follows the last slash (character 47). *)
Fixpoint basename_from (acc p : string) : string :=
  match p with
  | EmptyString => acc
  | String c p' =>
      if Ascii.eqb c (Ascii.ascii_of_nat 47) then basename_from EmptyString p'
      else basename_from (acc +:+ String c EmptyString) p'
  end.

Definition basename (p : string) : string := basename_from EmptyString p.

(** [load_db_from_history(path)].  The value returned is how the call leaves
    the script and the message put in the sidebar. *)
Definition load_db_from_history (path : string) : M (script_flow * sidebar_event) :=
  let* w := get in
  if path_exists path w then
    modify (λ w,
      let s := session w in
      set_session (SessionState (s_username s) (Some path) true
                     (s_db_version s + 1) (s_num_villages s) (s_db_id s)
                     (s_history s)) w);;
    ret (Continue, SidebarSuccess ("Loaded database: " +:+ basename path))
  else
    let user := s_username (session w) in
    let* h := load_history in
    match h !! user with
    | Some entries =>
        let h' := <[user := filter (λ e, h_db_path e ≠ path) entries]> h in
        save_history h';;
        modify (λ w,
          let s := session w in
          set_session (SessionState (s_username s) (s_db_path s)
                         (s_db_generated s) (s_db_version s) (s_num_villages s)
                         (s_db_id s) h') w);;
        ret (Rerun, SidebarError "Database file not found! Removing from history...")
    | None =>
        ret (Rerun, SidebarError "Database file not found! Removing from history...")
    end.

End History.

(** ** utils.py: [delete_log_entries] *)

Module Utils.
Section log.

(** [json] is taken as given: [J] is the type of the values [json.loads]
    returns, and [dumps e] is [json.dumps(e, sort_keys=True)]. *)
Context {J : Type} (dumps : J → string).

(** A line of [logs.json] as the reading loop sees it: blank
    ([line.strip()] is empty), not JSON ([json.loads] raises
    [JSONDecodeError]), or a value. *)
Inductive log_line : Type :=
  | BlankLine
  | MalformedLine (text : string)
  | JsonLine (e : J).

(** Step 1, "Read all logs". *)
Definition read_logs (lines : list log_line) : list J :=
  omap (λ l, match l with JsonLine e => Some e | _ => None end) lines.

(** [delete_log_entries(entries_to_delete)] on the content of [LOG_FILE],
    [None] when the file does not exist. *)
Definition delete_log_entries (entries_to_delete : list J)
    (log : option (list log_line)) : option (list log_line) :=
  match log with
  | None => None
  | Some lines =>
      let all_logs := read_logs lines in
      let del_set : gset string := list_to_set (dumps <$> entries_to_delete) in
      let new_logs := filter (λ e, dumps e ∉ del_set) all_logs in
      Some (JsonLine <$> new_logs)
  end.

End log.
End Utils.

Import History Utils.

(** ** More notions used in the statements *)

(** [SELECT COUNT( * ) FROM population WHERE VILLAGE_ID = v], one bar of
    "Population per Village". *)
Definition village_population (v : Z) (rows : list population_row) : Z :=
  Z.of_nat (length (filter (λ r, VILLAGE_ID r = v) rows)).

(** [SELECT COUNT( * ) FROM population WHERE GENDER = g], one slice of
    "Overall Gender Ratio". *)
Definition total_gender (g : gender) (rows : list population_row) : Z :=
  Z.of_nat (length (filter (λ r, GENDER r = g) rows)).

(** The user has two earlier entries in the history, one of them for a file
    that is no longer there. *)
Definition older_entry : history_entry :=
  HistoryEntry "0000aaaa" "villages_admin_0000aaaa.db" 28 "2024-12-31 09:00:00".

Definition stale_entry : history_entry :=
  HistoryEntry "0000bbbb" "villages_admin_0000bbbb.db" 56 "2024-12-31 09:30:00".

Definition history_world : world :=
  World (Some example_workbook) (Some example_base)
        {[ "villages_admin_0000aaaa.db" := Database (Some 1) (Some []) true ]}
        (Some {[ "admin" := [older_entry; stale_entry];
                 "guest" := [stale_entry] ]})
        [] None example_session [].

(** A base dataset whose second record has counter 0. *)
Definition bad_base : list base_record :=
  [ BaseRecord 1 10 100 EmptyCell None None;
    BaseRecord 0 10 101 EmptyCell None None ].

Definition bad_base_world : world :=
  World (Some example_workbook) (Some bad_base) ∅ None [] None
        example_session [].

(** The INSERT of this environment stops on its data after 2048 values of
    the sequence. *)
Definition vector_env : env :=
  Env "1a2b3c4d" example_clock (λ _, false) 2048%nat.



(** The Excel source is there, the parquet cache is not yet. *)
Definition example_sheet : list source_row :=
  [ SourceRow 1 10 100 (DateCell "1982-02-19"); SourceRow 2 10 101 EmptyCell ].

Definition first_load_world : world :=
  World (Some {[ "FINAL_POPULATION" := example_sheet ]}) None ∅ None [] None
        example_session [].

(** The same with a sheet whose birth dates are a date and a text, and
    with a workbook that has no sheet of the name. *)
Definition mixed_sheet : list source_row :=
  [ SourceRow 1 10 100 (DateCell "1982-02-19");
    SourceRow 2 10 101 (TextCell "unknown") ].

Definition mixed_sheet_world : world :=
  World (Some {[ "FINAL_POPULATION" := mixed_sheet ]}) None ∅ None [] None
        example_session [].

Definition no_sheet_world : world :=
  World (Some {[ "Sheet1" := example_sheet ]}) None ∅ None [] None
        example_session [].

(** The integer columns of the sheet are int64 columns. *)
Definition fits_int64 (z : Z) : bool :=
  (-9223372036854775808 <=? z) && (z <=? 9223372036854775807).

Definition sheet_fits_int64 (sheet : list source_row) : Prop :=
  Forall (λ r, fits_int64 (src_COUNTER r) && fits_int64 (src_FAMILY_ID r)
               && fits_int64 (src_PERSON_ID r) = true) sheet.

(** * Theorems *)

(** ** Facts about the mapping *)

Section marriage_facts.

Lemma get_marriage_valid v c :
  1 ≤ v → 1 ≤ c →
  get_marriage_to_village_id v c = Ok (marriage_village v c).
Proof.
  intros Hv Hc. unfold get_marriage_to_village_id, marriage_village, offset.
  destruct (Z.leb_spec 1 v); [|lia]. destruct (Z.leb_spec 1 c); [|lia].
  cbn [negb]. cbv zeta. by case_match.
Qed.

Lemma offset_odd_range c : 1 ≤ offset c ≤ 27 ∧ offset c `mod` 2 = 1.
Proof.
  unfold offset. cbv zeta.
  set (k := ((c - 1) `mod` 196) + 1).
  assert (1 ≤ k ≤ 196) by (unfold k; pose proof (Z.mod_pos_bound (c - 1) 196 ltac:(lia)); lia).
  assert (0 ≤ (k - 1) `div` 28 ≤ 6) as Hb.
  { split; [apply Z.div_pos; lia|].
    enough ((k - 1) `div` 28 < 7) by lia. apply Z.div_lt_upper_bound; lia. }
  set (b := (k - 1) `div` 28) in *.
  case_match; split; try lia.
  - replace (1 + 4 * b) with (1 + (2 * b) * 2) by lia.
    by rewrite Z.mod_add.
  - replace (1 + 4 * b + 2) with (1 + (2 * b + 1) * 2) by lia.
    by rewrite Z.mod_add.
Qed.

Lemma local_id_range v : 1 ≤ v - ((v - 1) `div` 28) * 28 ≤ 28.
Proof.
  pose proof (Z.div_mod (v - 1) 28 ltac:(lia)).
  pose proof (Z.mod_pos_bound (v - 1) 28 ltac:(lia)). lia.
Qed.

End marriage_facts.

(** ** The village-marriage mapping *)

Section marriage_theorems.

Lemma offset_congruent c1 c2 :
  c1 `mod` 196 = c2 `mod` 196 → offset c1 = offset c2.
Proof.
  intros Heq. unfold offset.
  rewrite (Zminus_mod c1 1 196), (Zminus_mod c2 1 196), Heq. done.
Qed.

Lemma offset_reduced c : offset (((c - 1) `mod` 196) + 1) = offset c.
Proof.
  unfold offset. cbv zeta.
  by rewrite !Z.add_simpl_r, Zmod_mod.
Qed.

Lemma reduced_counter_positive c : 1 ≤ ((c - 1) `mod` 196) + 1.
Proof. pose proof (Z.mod_pos_bound (c - 1) 196 ltac:(lia)). lia. Qed.

Lemma get_marriage_raises v c :
  v < 1 ∨ c < 1 → ∃ msg, get_marriage_to_village_id v c = Raise (ValueError msg).
Proof.
  intros Hbad. unfold get_marriage_to_village_id.
  destruct (Z.leb_spec 1 v); cbn [negb]; [|by eexists].
  destruct (Z.leb_spec 1 c); cbn [negb]; [lia|by eexists].
Qed.

(** C1. For every village id and counter that are at least 1, the village a
    person marries into lies in the same block of 28 villages as the
    person's own village: [floor((result-1)/28) = floor((village_id-1)/28)]. *)
Theorem marriage_same_super_block v c :
  1 ≤ v → 1 ≤ c →
  ∃ r, get_marriage_to_village_id v c = Ok r ∧
       (r - 1) `div` 28 = (v - 1) `div` 28.
Proof.
  intros Hv Hc. rewrite get_marriage_valid by done.
  eexists; split; [done|]. unfold marriage_village.
  set (q := (v - 1) `div` 28).
  set (m := (v - q * 28 + offset c - 1) `mod` 28).
  assert (0 ≤ m < 28) as Hm by (apply Z.mod_pos_bound; lia).
  replace (m + 1 + q * 28 - 1) with (m + q * 28) by lia.
  rewrite Z.div_add by lia. rewrite Z.div_small by done. lia.
Qed.

Lemma marriage_same_super_block_witness :
  1 ≤ 57 ∧ 1 ≤ 200 ∧
  ∃ r, get_marriage_to_village_id 57 200 = Ok r ∧
       (r - 1) `div` 28 = (57 - 1) `div` 28.
Proof.
  split; [lia|]. split; [lia|].
  apply (marriage_same_super_block 57 200); lia.
Defined.

(** C2. On valid arguments the code returns exactly the value of the seven
    integer steps of the specification, and the worked example holds:
    village 1 with counter 1 marries into village 2. *)
Theorem get_marriage_refines_spec v c :
  1 ≤ v → 1 ≤ c →
  get_marriage_to_village_id v c = Ok (map_marriage_spec v c) ∧
  get_marriage_to_village_id 1 1 = Ok 2.
Proof.
  intros Hv Hc. split; [|done].
  unfold get_marriage_to_village_id, map_marriage_spec.
  destruct (Z.leb_spec 1 v); [|lia]. destruct (Z.leb_spec 1 c); [|lia].
  cbn [negb]. cbv zeta.
  set (p := (((c - 1) `mod` 196) + 1
             - 28 * ((((c - 1) `mod` 196) + 1 - 1) `div` 28)) `mod` 4).
  replace (bool_decide (p ∈ [1; 2])) with ((p =? 1) || (p =? 2)); [done|].
  destruct (Z.eqb_spec p 1) as [->|H1]; [done|].
  destruct (Z.eqb_spec p 2) as [->|H2]; [done|].
  symmetry. apply bool_decide_eq_false.
  rewrite !elem_of_cons, elem_of_nil. tauto.
Qed.

Lemma get_marriage_refines_spec_witness :
  1 ≤ 30 ∧ 1 ≤ 199 ∧
  get_marriage_to_village_id 30 199 = Ok (map_marriage_spec 30 199) ∧
  get_marriage_to_village_id 1 1 = Ok 2.
Proof.
  split; [lia|]. split; [lia|].
  apply (get_marriage_refines_spec 30 199); lia.
Defined.

(** C6. The result depends on the counter only through
    [((c-1) mod 196)+1]: two counters congruent modulo 196 give the same
    village. *)
Theorem marriage_counter_mod_196 v c1 c2 :
  1 ≤ v → 1 ≤ c1 → 1 ≤ c2 → c1 `mod` 196 = c2 `mod` 196 →
  get_marriage_to_village_id v c1 = get_marriage_to_village_id v c2 ∧
  get_marriage_to_village_id v c1
    = get_marriage_to_village_id v (((c1 - 1) `mod` 196) + 1).
Proof.
  intros Hv H1 H2 Heq.
  pose proof (reduced_counter_positive c1).
  rewrite !get_marriage_valid by done. unfold marriage_village.
  by rewrite offset_reduced, (offset_congruent c1 c2).
Qed.

Lemma marriage_counter_mod_196_witness :
  1 ≤ 5 ∧ 1 ≤ 3 ∧ 1 ≤ 395 ∧ 3 `mod` 196 = 395 `mod` 196 ∧
  get_marriage_to_village_id 5 3 = get_marriage_to_village_id 5 395 ∧
  get_marriage_to_village_id 5 3
    = get_marriage_to_village_id 5 (((3 - 1) `mod` 196) + 1).
Proof.
  split; [lia|]. split; [lia|]. split; [lia|]. split; [reflexivity|].
  apply (marriage_counter_mod_196 5 3 395); [lia..|reflexivity].
Defined.

(** C7. The mapping raises (a [ValueError], the code's invalid-argument
    error) exactly when the village id or the counter is below 1, in
    particular at 0, and returns a village for every other pair: nothing is
    clamped. *)
Theorem marriage_fails_exactly_on_non_positive v c :
  (v < 1 ∨ c < 1 ↔ ∃ msg, get_marriage_to_village_id v c = Raise (ValueError msg)) ∧
  (1 ≤ v ∧ 1 ≤ c ↔ ∃ r, get_marriage_to_village_id v c = Ok r) ∧
  (∃ msg, get_marriage_to_village_id 0 c = Raise (ValueError msg)) ∧
  (∃ msg, get_marriage_to_village_id v 0 = Raise (ValueError msg)).
Proof.
  assert (∀ v' c', 1 ≤ v' → 1 ≤ c' →
            ∃ r, get_marriage_to_village_id v' c' = Ok r) as Hok.
  { intros v' c' ??. rewrite get_marriage_valid by done. by eexists. }
  split; [split|split; [split|split]].
  - apply get_marriage_raises.
  - intros [msg Hmsg].
    destruct (decide (v < 1 ∨ c < 1)) as [|Hn]; [done|].
    destruct (Hok v c) as [r Hr]; [lia..|]. congruence.
  - intros [??]. by apply Hok.
  - intros [r Hr].
    destruct (decide (1 ≤ v ∧ 1 ≤ c)) as [|Hn]; [done|].
    destruct (get_marriage_raises v c) as [msg Hmsg]; [lia|]. congruence.
  - apply get_marriage_raises. lia.
  - apply get_marriage_raises. lia.
Qed.

(** C9. Nobody marries into their own village: on valid arguments the
    result differs from the village id, because the offset added inside
    the super-block is odd and between 1 and 27, so it is never a multiple
    of 28. *)
Theorem marriage_never_own_village v c :
  1 ≤ v → 1 ≤ c →
  ∃ r, get_marriage_to_village_id v c = Ok r ∧ r ≠ v ∧
       offset c `mod` 2 = 1 ∧ offset c `mod` 28 ≠ 0.
Proof.
  intros Hv Hc. rewrite get_marriage_valid by done.
  destruct (offset_odd_range c) as [Ha Hodd].
  pose proof (local_id_range v) as Hl.
  eexists; split; [done|]. split; [|split; [done|]].
  - unfold marriage_village. set (b := (v - 1) `div` 28 * 28) in *.
    set (l := v - b) in *. set (a := offset c) in *.
    pose proof (Z.div_mod (l + a - 1) 28 ltac:(lia)).
    pose proof (Z.mod_pos_bound (l + a - 1) 28 ltac:(lia)).
    lia.
  - rewrite Z.mod_small by lia. lia.
Qed.

Lemma marriage_never_own_village_witness :
  1 ≤ 28 ∧ 1 ≤ 196 ∧
  ∃ r, get_marriage_to_village_id 28 196 = Ok r ∧ r ≠ 28 ∧
       offset 196 `mod` 2 = 1 ∧ offset 196 `mod` 28 ≠ 0.
Proof.
  split; [lia|]. split; [lia|].
  apply (marriage_never_own_village 28 196); lia.
Defined.

End marriage_theorems.

(** ** The INSERT ... SELECT: its rows in closed form *)

Section query_facts.

Implicit Types (base : list base_record) (vs : list Z).
Implicit Types (bs : list (Z * base_record)).

Global Instance order_key_le_total : Total order_key_le.
Proof. intros [v1 [i1 b1]] [v2 [i2 b2]]. unfold order_key_le; simpl. lia. Qed.

Global Instance order_key_le_trans : Transitive order_key_le.
Proof. intros x y z. unfold order_key_le. lia. Qed.

Lemma base_with_idx_lookup base i :
  base_with_idx base !! i = (λ b, (Z.of_nat i, b)) <$> base !! i.
Proof.
  unfold base_with_idx. rewrite list_lookup_imap.
  destruct (base !! i); simpl; [|done]. do 2 f_equal. lia.
Qed.

Lemma base_with_idx_length base : length (base_with_idx base) = length base.
Proof. apply length_imap. Qed.

Lemma base_with_idx_elem base x :
  x ∈ base_with_idx base → base !! Z.to_nat x.1 = Some x.2.
Proof.
  intros [i Hi]%list_elem_of_lookup. rewrite base_with_idx_lookup in Hi.
  destruct (base !! i) as [b|] eqn:Hb; simplify_eq/=.
  by rewrite Nat2Z.id.
Qed.

Lemma base_with_idx_sorted base :
  StronglySorted (λ x y : Z * base_record, x.1 < y.1) (base_with_idx base).
Proof.
  unfold base_with_idx.
  enough (∀ k, StronglySorted (λ x y : Z * base_record, x.1 < y.1)
                 (imap (λ i b, (Z.of_nat (S (k + i)) - 1, b)) base)) as H
    by apply (H 0%nat).
  induction base as [|b base IH]; intros k; [constructor|].
  rewrite imap_cons. constructor.
  - erewrite imap_ext; [apply (IH (S k))|].
    intros i x _. simpl. do 2 f_equal. lia.
  - apply Forall_forall. intros x [i [y [-> _]]]%elem_of_lookup_imap.
    simpl. lia.
Qed.

Lemma villages_sorted n : StronglySorted Z.lt (villages n).
Proof.
  unfold villages. generalize (n + 1 - 1). intros len. generalize 1.
  induction (Z.to_nat len) as [|k IH] eqn:Hk in len |- *; intros m.
  - rewrite seqZ_nil by lia. constructor.
  - rewrite seqZ_cons by lia. constructor.
    + apply IH. lia.
    + apply Forall_forall. intros x Hx%elem_of_seqZ. lia.
Qed.

Lemma cross_join_sorted vs bs :
  StronglySorted Z.lt vs →
  StronglySorted (λ x y : Z * base_record, x.1 < y.1) bs →
  StronglySorted order_key_le (cross_join vs bs).
Proof.
  intros Hvs Hbs. unfold cross_join.
  induction Hvs as [|v vs Hvs IH Hv]; simpl; [constructor|].
  apply StronglySorted_app_2; [| |done].
  - intros x1 x2 Hx1 Hx2.
    apply list_elem_of_In, in_map_iff in Hx1 as [b1 [<- _]].
    destruct x2 as [v2 b2].
    apply list_elem_of_In, in_prod_iff in Hx2 as [Hv2 _].
    rewrite Forall_forall in Hv. left. simpl.
    apply Hv. by apply list_elem_of_In.
  - clear -Hbs. induction Hbs as [|b bs Hbs IH Hb]; simpl; constructor; [done|].
    rewrite Forall_forall in Hb. apply Forall_forall.
    intros x Hx. apply list_elem_of_In, in_map_iff in Hx as [b2 [<- Hb2]].
    right. simpl. split; [done|].
    apply Z.lt_le_incl, Hb. by apply list_elem_of_In.
Qed.

(** Whatever the order in which the join enumerates its pairs, the ORDER BY
    leaves them village-major, base order inside a village. *)
Lemma order_by_cross_join n base j :
  j ≡ₚ cross_join (villages n) (base_with_idx base) →
  order_by j = cross_join (villages n) (base_with_idx base).
Proof.
  intros Hj. unfold order_by.
  apply (Sorted_unique_strong order_key_le).
  - intros x1 x2 Hx1 Hx2 H12 H21.
    rewrite merge_sort_Permutation, Hj in Hx1.
    destruct x1 as [v1 [i1 b1]], x2 as [v2 [i2 b2]].
    unfold cross_join in *.
    apply list_elem_of_In, in_prod_iff in Hx1 as [_ Hb1].
    apply list_elem_of_In, in_prod_iff in Hx2 as [_ Hb2].
    apply list_elem_of_In, base_with_idx_elem in Hb1.
    apply list_elem_of_In, base_with_idx_elem in Hb2.
    unfold order_key_le in *. simpl in *.
    assert (v1 = v2) as -> by lia. assert (i1 = i2) as -> by lia.
    congruence.
  - apply Sorted_merge_sort, _.
  - apply StronglySorted_Sorted, cross_join_sorted;
      [apply villages_sorted|apply base_with_idx_sorted].
  - by rewrite merge_sort_Permutation.
Qed.

Lemma cross_join_lookup vs bs i k v b :
  vs !! i = Some v → bs !! k = Some b →
  cross_join vs bs !! (i * length bs + k)%nat = Some (v, b).
Proof.
  unfold cross_join. revert i.
  induction vs as [|v' vs IH]; intros i Hv Hb; [done|].
  simpl. destruct i as [|i]; simplify_eq/=.
  - apply lookup_app_l_Some. by rewrite list_lookup_fmap, Hb.
  - rewrite lookup_app_r by (rewrite length_map; lia).
    rewrite length_map.
    replace (length bs + i * length bs + k - length bs)%nat
      with (i * length bs + k)%nat by lia.
    by apply IH.
Qed.

Lemma select_row_ok v idx b :
  1 ≤ v → 1 ≤ b_COUNTER b →
  select_row (v, (idx, b)) = Ok (expected_row v idx b).
Proof.
  intros Hv Hc. unfold select_row, get_marriage_id.
  by rewrite get_marriage_valid.
Qed.

Lemma get_marriage_id_inv v c r :
  get_marriage_id v c = Ok r → 1 ≤ v ∧ 1 ≤ c ∧ r = marriage_village v c.
Proof.
  unfold get_marriage_id. intros Hr.
  destruct (decide (1 ≤ v ∧ 1 ≤ c)) as [[Hv Hc]|Hn].
  - rewrite get_marriage_valid in Hr by done. by simplify_eq.
  - destruct (get_marriage_raises v c) as [msg Hmsg]; [lia|].
    by rewrite Hmsg in Hr.
Qed.

Lemma select_row_inv x f :
  select_row x = Ok f → f = expected_row x.1 x.2.1 x.2.2.
Proof.
  destruct x as [v [idx b]]. unfold select_row. simpl.
  destruct (get_marriage_id v (b_COUNTER b)) as [r|e] eqn:Hr; [|done].
  apply get_marriage_id_inv in Hr as (_ & _ & ->). by intros [= <-].
Qed.

Lemma collect_fmap_ok {A B} (f : A → result B) (g : A → B) (l : list A) :
  (∀ x, x ∈ l → f x = Ok (g x)) → collect (f <$> l) = Ok (g <$> l).
Proof.
  induction l as [|x l IH]; intros Hl; [done|].
  rewrite !fmap_cons. cbn [collect]. rewrite (Hl x) by left.
  rewrite IH; [done|]. intros y Hy. apply Hl. by right.
Qed.

Lemma collect_fmap_inv {A B} (f : A → result B) (g : A → B) (l : list A) out :
  (∀ x y, f x = Ok y → y = g x) →
  collect (f <$> l) = Ok out → out = g <$> l.
Proof.
  intros Hfg. revert out. induction l as [|x l IH]; intros out.
  { simpl. by intros [= <-]. }
  rewrite !fmap_cons. cbn [collect].
  destruct (f x) as [y|e] eqn:Hx; [|done].
  destruct (collect (f <$> l)) as [rest|e]; [|done].
  intros [= <-]. by rewrite (Hfg x y Hx), (IH rest).
Qed.

Lemma insert_rows_imap (fs : list (Z → population_row)) start :
  insert_rows fs start
  = (imap (λ k f, f (start + Z.of_nat k)) fs, start + Z.of_nat (length fs)).
Proof.
  revert start. induction fs as [|f fs IH]; intros start.
  - simpl. f_equal. lia.
  - simpl. rewrite IH. f_equal.
    + f_equal; [f_equal; lia|]. apply imap_ext. intros i x _.
      simpl. f_equal. lia.
    + lia.
Qed.

Lemma select_query_ok n base :
  valid_base base →
  select_query n base
  = Ok ((λ x, expected_row x.1 x.2.1 x.2.2)
          <$> cross_join (villages n) (base_with_idx base)).
Proof.
  intros Hbase. unfold select_query.
  rewrite (order_by_cross_join n base) by done.
  apply collect_fmap_ok. intros [v [idx b]] Hx. simpl.
  unfold cross_join in Hx.
  apply list_elem_of_In, in_prod_iff in Hx as [Hv Hb].
  apply list_elem_of_In, elem_of_seqZ in Hv.
  apply list_elem_of_In, base_with_idx_elem in Hb. simpl in Hb.
  apply select_row_ok; [lia|].
  unfold valid_base in Hbase. rewrite Forall_forall in Hbase.
  apply Hbase. by eapply list_elem_of_lookup_2.
Qed.

(** A select that succeeds has computed the rows of the closed form. *)
Lemma select_query_inv n base fs :
  select_query n base = Ok fs →
  fs = (λ x, expected_row x.1 x.2.1 x.2.2)
         <$> cross_join (villages n) (base_with_idx base).
Proof.
  unfold select_query. rewrite (order_by_cross_join n base) by done.
  apply collect_fmap_inv. intros x f. apply select_row_inv.
Qed.

End query_facts.

(** ** Running [load_base_data] and [generate_database] *)

(** The five ways through the loader, one goal each: memoised, cached in
    parquet, converted from the sheet, a column that does not convert, no
    sheet of the name, no source. *)
Ltac loader_cases w :=
  let ex := fresh "ex" in
  let pq := fresh "pq" in
  let book := fresh "book" in
  unfold Database.load_base_data, load_base_data_body, to_parquet, read_excel,
    read_parquet, bind, get, modify, ret, raise;
  destruct w as [ex pq ? ? ? [?|] ? ?];
    [|destruct pq as [?|];
      [|destruct ex as [book|];
        [simpl; destruct (book !! "FINAL_POPULATION") as [?|] eqn:Hsheet;
           [simpl; destruct (mixed_cells _) eqn:Hmixed|]
        |]]];
  simpl.

Section run_facts.

Context (birth_date_serial : string → option Z) (date_of_birth : Z → string).

Abbreviation load_base_data := (load_base_data birth_date_serial date_of_birth).
Abbreviation generate_database := (generate_database birth_date_serial date_of_birth).

Lemma path_exists_excel w :
  path_exists BASE_EXCEL w = bool_decide (is_Some (excel_file w)).
Proof. reflexivity. Qed.

Lemma path_exists_parquet w :
  path_exists BASE_PARQUET w = bool_decide (is_Some (parquet_file w)).
Proof. reflexivity. Qed.

Lemma db_file_name_fresh user id :
  db_file_name user id ≠ BASE_EXCEL ∧ db_file_name user id ≠ BASE_PARQUET ∧
  db_file_name user id ≠ HISTORY_FILE.
Proof. by repeat split. Qed.

Lemma path_exists_db user id w :
  path_exists (db_file_name user id) w
  = bool_decide (is_Some (db_files w !! db_file_name user id)).
Proof.
  destruct (db_file_name_fresh user id) as (?&?&?).
  unfold path_exists. by repeat case_decide.
Qed.

Lemma os_remove_db user id w :
  os_remove (db_file_name user id) w
  = set_db_files (delete (db_file_name user id) (db_files w)) w.
Proof.
  destruct (db_file_name_fresh user id) as (?&?&?).
  unfold os_remove. by repeat case_decide.
Qed.

Lemma load_base_data_cases w :
  match st_cache w with
  | Some df => load_base_data w = (Ok df, w)
  | None =>
      match parquet_file w with
      | Some df => load_base_data w = (Ok df, set_st_cache (Some df) w)
      | None =>
          match excel_file w with
          | None => ∃ msg, load_base_data w = (Raise (FileNotFoundError msg), w)
          | Some book =>
              match book !! "FINAL_POPULATION" with
              | None => ∃ msg, load_base_data w = (Raise (ValueError msg), w)
              | Some sheet =>
                  let df := normalise birth_date_serial date_of_birth <$> sheet in
                  if mixed_cells (b_BIRTH_DATE <$> df)
                  then ∃ msg, load_base_data w = (Raise (ArrowException msg), w)
                  else load_base_data w
                       = (Ok df, set_st_cache (Some df)
                                   (set_parquet_file (Some df) w))
              end
          end
      end
  end.
Proof. loader_cases w; rewrite ?Hsheet, ?Hmixed; try done; by eexists. Qed.

(** The loader neither reads nor writes the database files. *)
Lemma load_base_data_set_db_files d w :
  load_base_data (set_db_files d w)
  = ((load_base_data w).1, set_db_files d (load_base_data w).2).
Proof. loader_cases w; by rewrite ?Hsheet, ?Hmixed. Qed.

(** What the loader leaves alone. *)
Lemma load_base_data_frame w :
  let w' := (load_base_data w).2 in
  db_files w' = db_files w ∧ history_file w' = history_file w ∧
  session w' = session w ∧ log_file w' = log_file w ∧
  excel_file w' = excel_file w ∧ screen w' = screen w.
Proof. loader_cases w; by rewrite ?Hsheet, ?Hmixed. Qed.

Context (E : env).

Lemma bind_ok {A B} (m : M A) (k : A → M B) w a w' :
  m w = (Ok a, w') → bind m k w = k a w'.
Proof. unfold bind. by intros ->. Qed.

Lemma bind_raise {A B} (m : M A) (k : A → M B) w e w' :
  m w = (Raise e, w') → bind m k w = (Raise e, w').
Proof. unfold bind. by intros ->. Qed.

Lemma bind_inv {A B} (m : M A) (k : A → M B) w r w' :
  bind m k w = (r, w') →
  (∃ a w1, m w = (Ok a, w1) ∧ k a w1 = (r, w')) ∨
  (∃ e, m w = (Raise e, w') ∧ r = Raise e).
Proof.
  unfold bind. destruct (m w) as [[a|e] w1]; intros Hk.
  - left. by exists a, w1.
  - right. exists e. by simplify_eq.
Qed.

(** A statement that runs: the call returns what the statement returns and
    leaves in the file what the statement leaves. *)
Lemma db_exec_run {A} path op (f : database → result A * database) w db r db' :
  fails E op = false → db_files w !! path = Some db → f db = (r, db') →
  db_exec E path op f w = (r, set_db_files (<[path := db']> (db_files w)) w).
Proof. unfold db_exec. by intros -> -> ->. Qed.

Lemma db_exec_fails {A} path op (f : database → result A * database) w :
  fails E op = true →
  db_exec E path op f w = (Raise (StorageError (db_op_name op)), w).
Proof. unfold db_exec. by intros ->. Qed.

Lemma duckdb_connect_fresh path w :
  fails E OpConnect = false → db_files w !! path = None →
  duckdb_connect E path w
  = (Ok tt, set_db_files (<[path := empty_database]> (db_files w)) w).
Proof. unfold duckdb_connect. by intros -> ->. Qed.

Lemma duckdb_connect_fails path w :
  fails E OpConnect = true →
  duckdb_connect E path w = (Raise (StorageError (db_op_name OpConnect)), w).
Proof. unfold duckdb_connect. by intros ->. Qed.

(** The state of the world just before [load_base_data] runs inside
    [generate_database]: no file at the path of the new database. *)
Lemma remove_old_file path w :
  (∃ user id, path = db_file_name user id) →
  (if path_exists path w then os_remove path w else w)
  = set_db_files (delete path (db_files w)) w.
Proof.
  intros (user & id & ->). rewrite path_exists_db, os_remove_db.
  case_bool_decide as Hex; [done|].
  rewrite delete_id by (by apply eq_None_not_Some). by destruct w.
Qed.

End run_facts.

(** ** The rows of the table *)

Section rows_facts.

Implicit Types (base : list base_record) (rows : list population_row).

Lemma villages_length n : length (villages n) = Z.to_nat n.
Proof. unfold villages. rewrite length_seqZ. lia. Qed.

Lemma villages_lookup n v :
  1 ≤ v ≤ n → villages n !! Z.to_nat (v - 1) = Some v.
Proof.
  intros Hv. unfold villages. rewrite lookup_seqZ_lt by lia. f_equal. lia.
Qed.

Lemma expected_rows_length n base start :
  length (expected_rows n base start) = (Z.to_nat n * length base)%nat.
Proof.
  unfold expected_rows, cross_join.
  by rewrite length_imap, length_prod, villages_length, base_with_idx_length.
Qed.

Lemma expected_rows_lookup n base start v idx b :
  1 ≤ v ≤ n → base !! idx = Some b →
  expected_rows n base start !! (Z.to_nat (v - 1) * length base + idx)%nat
  = Some (expected_row v (Z.of_nat idx) b
            (start + Z.of_nat (Z.to_nat (v - 1) * length base + idx))).
Proof.
  intros Hv Hb. unfold expected_rows. rewrite list_lookup_imap.
  rewrite <-(base_with_idx_length base).
  rewrite (cross_join_lookup _ _ _ _ v (Z.of_nat idx, b));
    [done|by apply villages_lookup|by rewrite base_with_idx_lookup, Hb].
Qed.

(** Every row of the table is the row of one village and one base
    record. *)
Lemma expected_rows_lookup_inv n base start k r :
  expected_rows n base start !! k = Some r →
  ∃ v idx b,
    1 ≤ v ≤ n ∧ base !! idx = Some b ∧
    k = (Z.to_nat (v - 1) * length base + idx)%nat ∧
    r = expected_row v (Z.of_nat idx) b (start + Z.of_nat k).
Proof.
  intros Hk. pose proof (lookup_lt_Some _ _ _ Hk) as Hlt.
  rewrite expected_rows_length in Hlt.
  assert (0 < length base)%nat as HB by (destruct (length base); lia).
  set (B := length base) in *.
  assert (k `mod` B < B)%nat as Hj by (apply Nat.mod_upper_bound; lia).
  destruct (lookup_lt_is_Some_2 base (k `mod` B)%nat Hj) as [b Hb].
  pose proof (Nat.div_mod_eq k B) as Hdiv.
  assert (k `div` B < Z.to_nat n)%nat as Hi.
  { apply Nat.Div0.div_lt_upper_bound. lia. }
  exists (Z.of_nat (k `div` B) + 1), (k `mod` B)%nat, b.
  assert (Z.to_nat (Z.of_nat (k `div` B) + 1 - 1) = (k `div` B)%nat) as Hv by lia.
  assert (k = (Z.to_nat (Z.of_nat (k `div` B) + 1 - 1) * B + k `mod` B)%nat)
    as Hpos by (rewrite Hv; lia).
  split; [lia|]. split; [done|]. split; [done|].
  pose proof (expected_rows_lookup n base start
                (Z.of_nat (k `div` B) + 1) (k `mod` B)%nat b) as Hrow.
  fold B in Hrow. rewrite <-Hpos in Hrow.
  rewrite Hrow in Hk by (done || lia). congruence.
Qed.


(** *** The checkerboard *)

Lemma gender_case_spec idx v :
  0 ≤ idx → 1 ≤ v →
  gender_case idx v
  = if bool_decide ((idx `mod` 2 = 0) ↔ (v `mod` 2 = 1)) then MALE else FEMALE.
Proof.
  intros Hidx Hv. unfold gender_case.
  rewrite !Z.rem_mod_nonneg by lia.
  destruct (Z.eqb_spec (idx `mod` 2) 0), (Z.eqb_spec (v `mod` 2) 1); simpl;
    case_bool_decide; tauto.
Qed.

Lemma gender_case_succ idx v : gender_case (idx + 1) v ≠ gender_case idx v.
Proof.
  unfold gender_case.
  assert ((Z.rem (idx + 1) 2 =? 0) = negb (Z.rem idx 2 =? 0)) as ->.
  { pose proof (Z.rem_bound_abs idx 2 ltac:(lia)).
    pose proof (Z.rem_bound_abs (idx + 1) 2 ltac:(lia)).
    pose proof (Z.quot_rem idx 2 ltac:(lia)).
    pose proof (Z.quot_rem (idx + 1) 2 ltac:(lia)).
    destruct (Z.eqb_spec (Z.rem (idx + 1) 2) 0),
             (Z.eqb_spec (Z.rem idx 2) 0); simpl; lia. }
  by destruct (Z.rem idx 2 =? 0), (Z.rem v 2 =? 1).
Qed.

End rows_facts.

(** ** Counting genders in a village *)

Section gender_counts.

Implicit Types (base : list base_record) (vs : list Z).
Implicit Types (bs : list (Z * base_record)).

Local Abbreviation in_cell g v :=
  (λ x : Z * (Z * base_record), x.1 = v ∧ gender_case x.2.1 x.1 = g).

Lemma length_filter_imap {A B} (P : B → Prop) `{!∀ y, Decision (P y)}
    (Q : A → Prop) `{!∀ x, Decision (Q x)} (F : nat → A → B) (l : list A) :
  (∀ k x, P (F k x) ↔ Q x) →
  length (filter P (imap F l)) = length (filter Q l).
Proof.
  revert F. induction l as [|x l IH]; intros F HF; [done|].
  rewrite imap_cons, !filter_cons.
  destruct (decide (P (F 0%nat x))) as [HP|HP], (decide (Q x)) as [HQ|HQ];
    [|by apply HF in HP|by apply (proj2 (HF 0%nat x)) in HQ|];
    simpl; rewrite IH; try done; intros k y; apply HF.
Qed.

Lemma gender_count_expected_rows g v n base start :
  gender_count g v (expected_rows n base start)
  = Z.of_nat (length (filter (in_cell g v)
                        (cross_join (villages n) (base_with_idx base)))).
Proof.
  unfold gender_count, expected_rows. f_equal.
  by apply length_filter_imap.
Qed.

Lemma filter_other_village g v v' bs :
  v' ≠ v → filter (in_cell g v) (map (pair v') bs) = [].
Proof.
  intros Hne. induction bs as [|b bs IH]; [done|].
  simpl. rewrite filter_cons_False; [done|]. simpl. tauto.
Qed.

Lemma filter_other_villages g v vs bs :
  Forall (λ v', v' ≠ v) vs → filter (in_cell g v) (cross_join vs bs) = [].
Proof.
  unfold cross_join. induction 1 as [|v' vs Hv' _ IH]; [done|].
  simpl. by rewrite filter_app, filter_other_village, IH.
Qed.

(** Inside one village the genders alternate, so the difference of the two
    counts stays within one, on the side of the gender of the first row. *)
Lemma village_block_balance v base k :
  let bs := imap (λ i b, (Z.of_nat (S (k + i)) - 1, b)) base in
  let d := Z.of_nat (length (filter (in_cell MALE v) (map (pair v) bs)))
           - Z.of_nat (length (filter (in_cell FEMALE v) (map (pair v) bs))) in
  if decide (gender_case (Z.of_nat k) v = MALE) then 0 ≤ d ≤ 1 else -1 ≤ d ≤ 0.
Proof.
  revert k. induction base as [|b base IH]; intros k.
  { simpl. case_decide; lia. }
  cbv zeta. rewrite imap_cons.
  rewrite (imap_ext _ (λ i b, (Z.of_nat (S (S k + i)) - 1, b)))
    by (intros; simpl; do 2 f_equal; lia).
  specialize (IH (S k)). cbv zeta in IH.
  pose proof (gender_case_succ (Z.of_nat k) v) as Hflip.
  replace (Z.of_nat k + 1) with (Z.of_nat (S k)) in Hflip by lia.
  cbn [map]. rewrite !filter_cons. cbn [fst snd].
  replace (Z.of_nat (S (k + 0)) - 1) with (Z.of_nat k) by lia.
  destruct (gender_case (Z.of_nat k) v) eqn:Hk,
           (gender_case (Z.of_nat (S k)) v) eqn:Hk'; try done;
    repeat case_decide; try (exfalso; intuition congruence); cbn [length]; lia.
Qed.

Lemma cross_join_balance v vs base :
  StronglySorted Z.lt vs →
  -1 ≤ Z.of_nat (length (filter (in_cell MALE v)
                           (cross_join vs (base_with_idx base))))
       - Z.of_nat (length (filter (in_cell FEMALE v)
                             (cross_join vs (base_with_idx base)))) ≤ 1.
Proof.
  induction 1 as [|v' vs Hvs IH Hv']; [simpl; lia|].
  unfold cross_join in *. simpl. rewrite !filter_app, !length_app.
  destruct (decide (v' = v)) as [->|Hne].
  - rewrite !(filter_other_villages _ v vs)
      by (eapply Forall_impl; [done|]; simpl; lia).
    pose proof (village_block_balance v base 0) as Hblock.
    cbv zeta in Hblock. cbn [Nat.add] in Hblock.
    fold (base_with_idx base) in Hblock.
    change (pair v) with (λ y : Z * base_record, (v, y)) in Hblock.
    cbn [length]. case_decide; lia.
  - rewrite !filter_other_village by done. simpl. lia.
Qed.

Lemma expected_rows_balance n base start v :
  -1 ≤ gender_count MALE v (expected_rows n base start)
       - gender_count FEMALE v (expected_rows n base start) ≤ 1.
Proof.
  rewrite !gender_count_expected_rows.
  apply cross_join_balance, villages_sorted.
Qed.

End gender_counts.

(** ** The INTEGER columns *)

Section int32_facts.

Implicit Types (base : list base_record) (rows : list population_row).




Lemma insert_rows_expected n base start :
  insert_rows ((λ x, expected_row x.1 x.2.1 x.2.2)
                 <$> cross_join (villages n) (base_with_idx base)) start
  = (expected_rows n base start,
     start + Z.of_nat (length (expected_rows n base start))).
Proof.
  rewrite insert_rows_imap, imap_fmap, length_fmap.
  unfold expected_rows. by rewrite length_imap.
Qed.

Lemma collect_all_ok {A B} (f : A → result B) (l : list A) out :
  collect (f <$> l) = Ok out → ∀ x, x ∈ l → is_ok (f x) = true.
Proof.
  revert out. induction l as [|y l IH]; intros out Hout x Hx.
  { by apply elem_of_nil in Hx. }
  rewrite fmap_cons in Hout. cbn [collect] in Hout.
  destruct (f y) as [b|e] eqn:Hy; [|done].
  destruct (collect (f <$> l)) as [rest|e]; [|done].
  apply elem_of_cons in Hx as [->|Hx]; [by rewrite Hy|by eapply IH].
Qed.

(** With at least one village, the UDF has seen every counter of the base
    dataset: a select that succeeds has found them all positive. *)
Lemma select_query_counters n base :
  1 ≤ n → is_ok (select_query n base) = true → valid_base base.
Proof.
  intros Hn Hsel. unfold select_query in Hsel.
  rewrite (order_by_cross_join n base) in Hsel by done.
  destruct (collect _) as [out|e] eqn:Hout; [|done].
  apply Forall_lookup_2. intros i b Hb.
  pose proof (collect_all_ok _ _ _ Hout (1, (Z.of_nat i, b))) as Hrow.
  assert (is_ok (select_row (1, (Z.of_nat i, b))) = true) as Hok.
  { apply Hrow. unfold cross_join. apply list_elem_of_In, in_prod_iff. split.
    - apply list_elem_of_In, elem_of_seqZ. lia.
    - apply list_elem_of_In, list_elem_of_lookup. exists i.
      by rewrite base_with_idx_lookup, Hb. }
  unfold select_row in Hok.
  destruct (get_marriage_id 1 (b_COUNTER b)) as [r|e] eqn:Hr; [|done].
  by apply get_marriage_id_inv in Hr as (_ & ? & _).
Qed.

Lemma select_query_is_ok n base :
  valid_base base → is_ok (select_query n base) = true.
Proof. intros Hbase. by rewrite select_query_ok. Qed.

End int32_facts.

(** ** What a run of [generate_database] leaves behind *)

Ltac tidy :=
  cbn [db_files set_db_files set_session set_history_file set_log_file show
       excel_file parquet_file history_file log_file st_cache session screen
       db_seq db_population db_idx_village empty_database fst snd
       s_username s_db_path s_db_generated s_db_version s_num_villages
       s_db_id s_history];
  rewrite ?insert_insert_eq.

Ltac tidy_in H :=
  cbn [db_files set_db_files set_session set_history_file set_log_file show
       excel_file parquet_file history_file log_file st_cache session screen
       db_seq db_population db_idx_village empty_database fst snd
       s_username s_db_path s_db_generated s_db_version s_num_villages
       s_db_id s_history] in H;
  rewrite ?insert_insert_eq in H.

Section synthesis_run.

Context (birth_date_serial : string → option Z) (date_of_birth : Z → string).
Context (E : env).

Abbreviation load := (Database.load_base_data birth_date_serial date_of_birth).
Abbreviation generate :=
  (Database.generate_database birth_date_serial date_of_birth E).

Implicit Types (base : list base_record) (rows : list population_row).

(** The INSERT on the table just created. *)
Lemma insert_into_cases n base :
  let rows := expected_rows n base 1 in
  (is_ok (select_query n base) = true ∧
   forallb row_fits_int32 rows = true ∧
   insert_into E n base (Database (Some 1) (Some []) false)
   = (Ok tt, Database (Some (1 + Z.of_nat (length rows))) (Some rows) false)) ∨
  (is_ok (select_query n base) && forallb row_fits_int32 rows = false ∧
   ∃ e, insert_into E n base (Database (Some 1) (Some []) false)
        = (Raise e, Database (Some (1 + Z.of_nat (insert_consumed E)))
                      (Some []) false) ∧
        ((∃ msg, e = InvalidInputException msg) ∨
         (∃ msg, e = ConversionException msg))).
Proof.
  cbv zeta. unfold insert_into. cbn [db_seq db_population db_idx_village].
  destruct (select_query n base) as [fs|e] eqn:Hsel.
  - apply select_query_inv in Hsel as ->.
    rewrite insert_rows_expected. cbn [app is_ok andb].
    destruct (forallb row_fits_int32 (expected_rows n base 1)) eqn:Hfit.
    + by left.
    + right. split; [done|]. eexists. split; [done|]. right. by eexists.
  - right. split; [done|]. exists e. split; [done|]. left.
    unfold select_query in Hsel.
    assert (∀ l : list (Z * (Z * base_record)),
              collect (select_row <$> l) = Raise e →
              ∃ msg, e = InvalidInputException msg) as Hcollect.
    { induction l as [|[v [idx b]] l IH]; [done|].
      rewrite fmap_cons. cbn [collect]. unfold select_row at 1.
      unfold get_marriage_id.
      destruct (get_marriage_to_village_id v (b_COUNTER b)).
      - destruct (collect (select_row <$> l)); [done|].
        intros [= ->]. by apply IH.
      - intros [= <-]. by eexists. }
    by eapply Hcollect.
Qed.

Lemma insert_into_ok n base :
  is_ok (select_query n base) = true →
  forallb row_fits_int32 (expected_rows n base 1) = true →
  insert_into E n base (Database (Some 1) (Some []) false)
  = (Ok tt, Database (Some (1 + Z.of_nat (length (expected_rows n base 1))))
              (Some (expected_rows n base 1)) false).
Proof.
  intros Hsel Hfit.
  destruct (insert_into_cases n base) as [(_ & _ & Hins)|[Hno _]]; [done|].
  by rewrite Hsel, Hfit in Hno.
Qed.

(** The whole store after a run in which the base data loads, no storage
    call fails and the INSERT goes through. *)
Lemma generate_database_outcome n w base :
  (∀ op, fails E op = false) →
  (load w).1 = Ok base →
  is_ok (select_query n base) = true →
  forallb row_fits_int32 (expected_rows n base 1) = true →
  let user := s_username (session w) in
  let path := db_file_name user (uuid8 E) in
  let h := default ∅ (history_file w) in
  let h' := <[user := default [] (h !! user)
                        ++ [HistoryEntry (uuid8 E) path n (now E 0)]]> h in
  let rows := expected_rows n base 1 in
  let total := Z.of_nat (length rows) in
  let db := Database (Some (1 + total)) (Some rows) true in
  ∃ w',
    generate n w = (Ok tt, w') ∧
    db_files w' = <[path := db]> (db_files w) ∧
    history_file w' = Some h' ∧
    session w' = SessionState user (Some path) true
                   (s_db_version (session w) + 1) n (Some (uuid8 E)) h' ∧
    log_file w' = log_file w ++ [LogEntry (now E 1) user "GENERATE_DB" n total] ∧
    excel_file w' = excel_file w ∧
    screen w' = screen w ++ [StSuccessDb path total; StBalloons;
                             StDownloadButton path db].
Proof.
  intros Hfails Hload Hsel Hfit user path h h' rows total db.
  unfold Database.generate_database. fold user. fold path.
  rewrite (bind_ok get _ w w w) by done. cbv zeta. fold user path.
  rewrite (bind_ok _ _ w tt (set_db_files (delete path (db_files w)) w)).
  2:{ rewrite <-(remove_old_file path w) by (by do 2 eexists).
      unfold when. by destruct (path_exists path w). }
  destruct (load w) as [r w2] eqn:Hl. simpl in Hload. subst r.
  pose proof (load_base_data_frame birth_date_serial date_of_birth w)
    as (_ & Hhist & Hsess & Hlog & Hexcel & Hscreen).
  rewrite Hl in Hhist, Hsess, Hlog, Hexcel, Hscreen.
  simpl in Hhist, Hsess, Hlog, Hexcel, Hscreen.
  rewrite (bind_ok _ _ _ base (set_db_files (delete path (db_files w)) w2)).
  2:{ by rewrite load_base_data_set_db_files, Hl. }
  erewrite bind_ok;
    [|apply duckdb_connect_fresh; [done|apply lookup_delete_eq]]. tidy.
  do 2 (erewrite bind_ok;
        [|eapply db_exec_run; [done|apply lookup_insert_eq|done]]; tidy).
  erewrite bind_ok.
  2:{ eapply db_exec_run; [done|apply lookup_insert_eq|].
      by apply insert_into_ok. }
  tidy.
  do 3 (erewrite bind_ok;
        [|eapply db_exec_run; [done|apply lookup_insert_eq|done]]; tidy).
  do 8 (erewrite bind_ok by reflexivity; tidy).
  rewrite lookup_insert_eq.
  eexists; split; [reflexivity|]. tidy.
  rewrite insert_delete_eq, Hhist, Hsess, Hlog, Hexcel, Hscreen.
  subst total rows db h' h.
  cbn [app]. rewrite <-?app_assoc.
  repeat split; reflexivity.
Qed.

(** A run that returns has met no storage failure, has loaded the base data
    and its INSERT has gone through. *)
Lemma generate_database_ok_inv n w w' :
  generate n w = (Ok tt, w') →
  (∀ op, fails E op = false) ∧
  ∃ base, (load w).1 = Ok base ∧
          is_ok (select_query n base) = true ∧
          forallb row_fits_int32 (expected_rows n base 1) = true.
Proof.
  intros Hrun. unfold Database.generate_database in Hrun.
  rewrite (bind_ok get _ w w w) in Hrun by done. cbv zeta in Hrun.
  set (path := db_file_name (s_username (session w)) (uuid8 E)) in *.
  rewrite (bind_ok _ _ w tt (set_db_files (delete path (db_files w)) w))
    in Hrun.
  2:{ rewrite <-(remove_old_file path w) by (by do 2 eexists).
      unfold when. by destruct (path_exists path w). }
  destruct (load w) as [[base|e] w2] eqn:Hl.
  2:{ erewrite bind_raise in Hrun; [done|].
      by rewrite load_base_data_set_db_files, Hl. }
  rewrite (bind_ok _ _ _ base (set_db_files (delete path (db_files w)) w2))
    in Hrun.
  2:{ by rewrite load_base_data_set_db_files, Hl. }
  destruct (fails E OpConnect) eqn:H0.
  { erewrite bind_raise in Hrun; [done|by apply duckdb_connect_fails]. }
  erewrite bind_ok in Hrun;
    [|apply duckdb_connect_fresh; [done|apply lookup_delete_eq]].
  tidy_in Hrun.
  destruct (fails E OpCreateSequence) eqn:H1.
  { erewrite bind_raise in Hrun; [done|by apply db_exec_fails]. }
  erewrite bind_ok in Hrun;
    [|eapply db_exec_run; [done|apply lookup_insert_eq|done]].
  tidy_in Hrun.
  destruct (fails E OpCreateTable) eqn:H2.
  { erewrite bind_raise in Hrun; [done|by apply db_exec_fails]. }
  erewrite bind_ok in Hrun;
    [|eapply db_exec_run; [done|apply lookup_insert_eq|done]].
  tidy_in Hrun.
  destruct (fails E OpInsert) eqn:H3.
  { erewrite bind_raise in Hrun; [done|by apply db_exec_fails]. }
  destruct (insert_into_cases n base)
    as [(Hsel & Hfit & Hins)|(_ & e & Hins & _)].
  2:{ erewrite bind_raise in Hrun; [done|].
      eapply db_exec_run; [done|apply lookup_insert_eq|done]. }
  erewrite bind_ok in Hrun;
    [|eapply db_exec_run; [done|apply lookup_insert_eq|done]].
  tidy_in Hrun.
  destruct (fails E OpCreateIndex) eqn:H4.
  { erewrite bind_raise in Hrun; [done|by apply db_exec_fails]. }
  erewrite bind_ok in Hrun;
    [|eapply db_exec_run; [done|apply lookup_insert_eq|done]].
  tidy_in Hrun.
  destruct (fails E OpCount) eqn:H5.
  { erewrite bind_raise in Hrun; [done|by apply db_exec_fails]. }
  erewrite bind_ok in Hrun;
    [|eapply db_exec_run; [done|apply lookup_insert_eq|done]].
  tidy_in Hrun.
  destruct (fails E OpClose) eqn:H6.
  { erewrite bind_raise in Hrun; [done|by apply db_exec_fails]. }
  split; [by intros []|]. by exists base.
Qed.

(** The same store, read off a run that has returned. *)
Lemma generate_database_success n w base w' :
  (load w).1 = Ok base →
  generate n w = (Ok tt, w') →
  let user := s_username (session w) in
  let path := db_file_name user (uuid8 E) in
  let h := default ∅ (history_file w) in
  let h' := <[user := default [] (h !! user)
                        ++ [HistoryEntry (uuid8 E) path n (now E 0)]]> h in
  let rows := expected_rows n base 1 in
  let total := Z.of_nat (length rows) in
  let db := Database (Some (1 + total)) (Some rows) true in
  forallb row_fits_int32 rows = true ∧
  (1 ≤ n → valid_base base) ∧
  db_files w' = <[path := db]> (db_files w) ∧
  history_file w' = Some h' ∧
  session w' = SessionState user (Some path) true
                 (s_db_version (session w) + 1) n (Some (uuid8 E)) h' ∧
  log_file w' = log_file w ++ [LogEntry (now E 1) user "GENERATE_DB" n total] ∧
  excel_file w' = excel_file w ∧
  screen w' = screen w ++ [StSuccessDb path total; StBalloons;
                           StDownloadButton path db].
Proof.
  intros Hload Hrun.
  destruct (generate_database_ok_inv n w w' Hrun)
    as (Hfails & base' & Hload' & Hsel & Hfit).
  assert (base' = base) as -> by congruence.
  destruct (generate_database_outcome n w base Hfails Hload Hsel Hfit)
    as (w'' & Hrun' & Hout).
  assert (w'' = w') as -> by congruence.
  cbv zeta. split; [done|]. split; [|done].
  intros Hn. by apply (select_query_counters n).
Qed.

(** The table a run that has returned has written. *)
Lemma generated_table n w base w' :
  (load w).1 = Ok base →
  generate n w = (Ok tt, w') →
  read_population (db_file_name (s_username (session w)) (uuid8 E)) w'
  = Some (expected_rows n base 1).
Proof.
  intros Hload Hrun.
  destruct (generate_database_success n w base w' Hload Hrun)
    as (_ & _ & Hdb & _).
  unfold read_population. by rewrite Hdb, lookup_insert_eq.
Qed.

End synthesis_run.

(** ** Synthesis: serial numbers, order and genders *)

Section synthesis_theorems.

Context (birth_date_serial : string → option Z) (date_of_birth : Z → string).
Context (E : env).

Abbreviation load_base_data := (load_base_data birth_date_serial date_of_birth).
Abbreviation generate_database :=
  (generate_database birth_date_serial date_of_birth E).


(** C5. In the table that a run has written, the row of village [v] and of
    the base record at 0-based position [idx] is MALE exactly when
    [(idx mod 2 = 0) = (v mod 2 = 1)] and FEMALE otherwise; two consecutive
    rows of one village have different genders; and in every village the
    numbers of MALE and of FEMALE rows differ by at most one. *)
Theorem gender_checkerboard n w base w' :
  (load_base_data w).1 = Ok base →
  generate_database n w = (Ok tt, w') →
  ∃ rows,
    read_population (db_file_name (s_username (session w)) (uuid8 E)) w'
      = Some rows ∧
    (∀ v idx b,
       1 ≤ v ≤ n → base !! idx = Some b →
       ∃ r, rows !! (Z.to_nat (v - 1) * length base + idx)%nat = Some r ∧
            VILLAGE_ID r = v ∧
            GENDER r = if bool_decide ((Z.of_nat idx `mod` 2 = 0) ↔ (v `mod` 2 = 1))
                       then MALE else FEMALE) ∧
    (∀ k r1 r2,
       rows !! k = Some r1 → rows !! S k = Some r2 →
       VILLAGE_ID r1 = VILLAGE_ID r2 → GENDER r1 ≠ GENDER r2) ∧
    (∀ v, -1 ≤ gender_count MALE v rows - gender_count FEMALE v rows ≤ 1).
Proof.
  intros Hload Hrun.
  exists (expected_rows n base 1).
  split; [by eapply generated_table|].
  split; [|split].
  - intros v idx b Hv Hb. eexists. split; [by apply expected_rows_lookup|].
    split; [done|]. simpl. apply gender_case_spec; lia.
  - intros k r1 r2 H1 H2 Hsame.
    apply expected_rows_lookup_inv in H1 as (v1 & i1 & b1 & Hv1 & Hb1 & Hk1 & ->).
    apply expected_rows_lookup_inv in H2 as (v2 & i2 & b2 & Hv2 & Hb2 & Hk2 & ->).
    simpl in *. subst v2.
    apply lookup_lt_Some in Hb1, Hb2.
    assert (i2 = S i1) as -> by lia.
    rewrite Nat2Z.inj_succ, <-Z.add_1_r.
    intros Heq. by apply (gender_case_succ (Z.of_nat i1) v1).
  - intros v. apply expected_rows_balance.
Qed.

End synthesis_theorems.



Lemma gender_checkerboard_witness :
  let w' := (Database.generate_database no_birth_date_serial no_date_of_birth
               example_env 56 example_world).2 in
  (Database.load_base_data no_birth_date_serial no_date_of_birth example_world).1
    = Ok example_base ∧
  Database.generate_database no_birth_date_serial no_date_of_birth example_env
    56 example_world = (Ok tt, w') ∧
  ∃ rows,
    read_population
      (db_file_name (s_username (session example_world)) (uuid8 example_env)) w'
      = Some rows ∧
    (∀ v idx b,
       1 ≤ v ≤ 56 → example_base !! idx = Some b →
       ∃ r, rows !! (Z.to_nat (v - 1) * length example_base + idx)%nat = Some r ∧
            VILLAGE_ID r = v ∧
            GENDER r = if bool_decide ((Z.of_nat idx `mod` 2 = 0) ↔ (v `mod` 2 = 1))
                       then MALE else FEMALE) ∧
    (∀ k r1 r2,
       rows !! k = Some r1 → rows !! S k = Some r2 →
       VILLAGE_ID r1 = VILLAGE_ID r2 → GENDER r1 ≠ GENDER r2) ∧
    (∀ v, -1 ≤ gender_count MALE v rows - gender_count FEMALE v rows ≤ 1).
Proof.
  cbv zeta.
  assert ((Database.load_base_data no_birth_date_serial no_date_of_birth
             example_world).1 = Ok example_base) as Hload by reflexivity.
  assert (Database.generate_database no_birth_date_serial no_date_of_birth
            example_env 56 example_world
          = (Ok tt, (Database.generate_database no_birth_date_serial
                       no_date_of_birth example_env 56 example_world).2))
    as Hrun by (vm_compute; reflexivity).
  split; [exact Hload|]. split; [exact Hrun|].
  exact (gender_checkerboard no_birth_date_serial no_date_of_birth
           example_env 56 example_world example_base _ Hload Hrun).
Defined.

(** ** The page: the multiple-of-28 gate *)

Section gate_theorems.

Context (birth_date_serial : string → option Z) (date_of_birth : Z → string).
Context (E : env).


End gate_theorems.



(** ** A storage failure during synthesis *)

Section storage_failure.

Context (birth_date_serial : string → option Z) (date_of_birth : Z → string).
Context (E : env).

Abbreviation generate_database' :=
  (Database.generate_database birth_date_serial date_of_birth E).

Lemma ledger_untouched_refl w : ledger_untouched w w.
Proof. by repeat split. Qed.

Lemma ledger_untouched_trans w1 w2 w3 :
  ledger_untouched w1 w2 → ledger_untouched w2 w3 → ledger_untouched w1 w3.
Proof. unfold ledger_untouched. intros (?&?&?) (?&?&?). repeat split; congruence. Qed.

Lemma db_exec_frame {A} path op (f : database → result A * database) w r w' :
  db_exec E path op f w = (r, w') →
  ledger_untouched w w' ∧
  (is_Some (db_files w !! path) → is_Some (db_files w' !! path)).
Proof.
  unfold db_exec, ledger_untouched. intros Hrun.
  destruct (fails E op); [by simplify_eq|].
  destruct (db_files w !! path) as [db|] eqn:Hdb; [|by simplify_eq].
  destruct (f db) as [r' db']; simplify_eq.
  simpl. repeat split; try done. intros _. rewrite lookup_insert_eq. by eexists.
Qed.

Lemma duckdb_connect_frame path w r w' :
  duckdb_connect E path w = (r, w') →
  (fails E OpConnect = true ∧ w' = w ∧ ∃ e, r = Raise e) ∨
  (fails E OpConnect = false ∧ r = Ok tt ∧ ledger_untouched w w' ∧
   is_Some (db_files w' !! path)).
Proof.
  unfold duckdb_connect, ledger_untouched. intros Hrun.
  destruct (fails E OpConnect); [left; simplify_eq; eauto|right].
  destruct (db_files w !! path) as [db|] eqn:Hdb; simplify_eq; simpl;
    repeat split; try done; rewrite ?lookup_insert_eq; by eexists.
Qed.

Lemma load_base_data_no_storage_error w msg w' :
  Database.load_base_data birth_date_serial date_of_birth w
  ≠ (Raise (StorageError msg), w').
Proof. loader_cases w; by rewrite ?Hsheet, ?Hmixed. Qed.

Local Ltac db_step :=
  match goal with
  | Hrun : bind (db_exec _ _ _ _) _ ?wi = _,
    Hled : ledger_untouched _ ?wi,
    Hfile : is_Some (db_files ?wi !! _) |- _ =>
      let Hstep := fresh "Hstep" in
      let Hl := fresh "Hled" in
      let Hf := fresh "Hfile" in
      apply bind_inv in Hrun as [(? & ? & Hstep & Hrun)|(? & Hstep & ?)];
      apply db_exec_frame in Hstep as [Hl Hf];
      pose proof (ledger_untouched_trans _ _ _ Hled Hl);
      pose proof (Hf Hfile);
      clear Hled Hl Hf Hfile; [|by split]
  end.

Theorem storage_failure_keeps_ledger n w msg :
  (generate_database' n w).1 = Raise (StorageError msg) →
  let w' := (generate_database' n w).2 in
  ledger_untouched w w' ∧
  (fails E OpConnect = false →
   is_Some (db_files w' !! db_file_name (s_username (session w)) (uuid8 E))).
Proof.
  destruct (generate_database' n w) as [r w'] eqn:Hrun. simpl.
  intros ->. unfold Database.generate_database in Hrun.
  rewrite (bind_ok get _ w w w) in Hrun by done. cbv zeta in Hrun.
  set (path := db_file_name (s_username (session w)) (uuid8 E)) in *.
  set (d := delete path (db_files w)).
  rewrite (bind_ok _ _ w tt (set_db_files d w)) in Hrun.
  2:{ unfold d. rewrite <-(remove_old_file path w) by (by do 2 eexists).
      unfold when. by destruct (path_exists path w). }
  apply bind_inv in Hrun as [(base & w2 & Hload & Hrun)|(e & Hload & ?)];
    [|simplify_eq; by apply load_base_data_no_storage_error in Hload].
  assert (ledger_untouched w w2) as Hled.
  { pose proof (load_base_data_frame birth_date_serial date_of_birth
                  (set_db_files d w)) as (_ & Hh & Hs & Hl & _).
    rewrite Hload in Hh, Hs, Hl. by repeat split. }
  clear Hload. clearbody d.
  apply bind_inv in Hrun as [([] & w3 & Hconn & Hrun)|(e & Hconn & ?)];
    apply duckdb_connect_frame in Hconn
      as [(Hc & -> & e' & ?)|(Hc & ? & Hled3 & Hfile)];
    simplify_eq; try by rewrite Hc.
  pose proof (ledger_untouched_trans _ _ _ Hled Hled3). clear Hled Hled3.
  do 6 db_step. exfalso.
  do 8 (erewrite bind_ok in Hrun by reflexivity).
  unfold modify, raise in Hrun. case_match; simplify_eq.
Qed.

End storage_failure.

Lemma storage_failure_keeps_ledger_witness :
  (Database.generate_database no_birth_date_serial no_date_of_birth failing_env
     28 example_world).1 = Raise (StorageError "INSERT") ∧
  let w' := (Database.generate_database no_birth_date_serial no_date_of_birth
               failing_env 28 example_world).2 in
  ledger_untouched example_world w' ∧
  (fails failing_env OpConnect = false →
   is_Some (db_files w'
              !! db_file_name (s_username (session example_world))
                   (uuid8 failing_env))).
Proof.
  assert ((Database.generate_database no_birth_date_serial no_date_of_birth
             failing_env 28 example_world).1 = Raise (StorageError "INSERT"))
    as Hraise by (vm_compute; reflexivity).
  split; [exact Hraise|].
  exact (storage_failure_keeps_ledger no_birth_date_serial no_date_of_birth
           failing_env 28 example_world "INSERT" Hraise).
Defined.

(** When the INSERT fails, the file that [duckdb.connect] created is not
    removed: it is still there after the failed run, with the sequence and
    the empty table [population] that the statements before the INSERT
    created. *)
Lemma failed_insert_leaves_file :
  ∃ w',
    Database.generate_database no_birth_date_serial no_date_of_birth failing_env
      28 example_world = (Raise (StorageError "INSERT"), w') ∧
    db_files example_world !! "villages_admin_1a2b3c4d.db" = None ∧
    db_files w' !! "villages_admin_1a2b3c4d.db"
      = Some (Database (Some 1) (Some []) false) ∧
    history_file w' = None.
Proof.
  eexists. split; [vm_compute; reflexivity|]. by vm_compute.
Qed.

(** ** The Excel source at start-up *)

Section startup_theorems.

Context (birth_date_serial : string → option Z) (date_of_birth : Z → string).
Context (E : env).

Lemma config_import_ok w r w' :
  config_import w = (r, w') →
  w' = w ∧ (r = Ok tt ↔ is_Some (excel_file w)) ∧
  (excel_file w = None → ∃ msg, r = Raise (FileNotFoundError msg)).
Proof.
  unfold config_import, bind, get, raise, ret. simpl.
  rewrite path_exists_excel.
  destruct (excel_file w) as [sheet|] eqn:Hex; simpl; intros Hrun;
    simplify_eq.
  - split; [done|]. split; [|done]. split; [by eexists|done].
  - split; [done|]. split; [|by eexists]. split; [done|by intros [??]].
Qed.

(** C10. With the Excel source absent, importing [config] raises
    [FileNotFoundError], whether or not the parquet cache exists, and so
    does the start of the dashboard, whatever the script goes on to do, and
    it changes nothing: the cache does not stand in for the source,
    although [load_base_data] on its own would have returned the cached
    rows.  Conversely, whenever the import succeeds the Excel source is
    there, so [load_base_data] never runs in a store where only the cache
    exists, and never raises its own [FileNotFoundError]. *)
Theorem excel_source_required (script : M unit) w :
  excel_file w = None →
  (∃ msg, config_import w = (Raise (FileNotFoundError msg), w)) ∧
  (∃ msg, run_dashboard script w = (Raise (FileNotFoundError msg), w)) ∧
  (∀ df, parquet_file w = Some df → st_cache w = None →
         (load_base_data birth_date_serial date_of_birth w).1 = Ok df) ∧
  (∀ w0 w1, config_import w0 = (Ok tt, w1) →
            w1 = w0 ∧ is_Some (excel_file w1) ∧
            ∀ msg, (load_base_data birth_date_serial date_of_birth w1).1
                   ≠ Raise (FileNotFoundError msg)).
Proof.
  intros Hno.
  destruct (config_import w) as [r w'] eqn:Himp.
  destruct (config_import_ok _ _ _ Himp) as (-> & _ & Hraise).
  destruct (Hraise Hno) as [msg ->].
  split; [by exists msg|]. split; [|split].
  - exists msg. unfold Ui.run_dashboard. by erewrite bind_raise.
  - intros df Hpq Hcache.
    pose proof (load_base_data_cases birth_date_serial date_of_birth w) as Hl.
    rewrite Hcache, Hpq in Hl. by rewrite Hl.
  - intros w0 w1 Hok.
    destruct (config_import_ok _ _ _ Hok) as (-> & Hex & _).
    split; [done|]. split; [by apply Hex|].
    intros msg'. apply proj1 in Hex. specialize (Hex eq_refl) as [src Hsrc].
    revert Hsrc.
    loader_cases w0; intros Hsrc; rewrite ?Hsheet, ?Hmixed; done.
Qed.

End startup_theorems.

Lemma excel_source_required_witness :
  excel_file cache_only_world = None ∧
  (∃ msg, config_import cache_only_world
          = (Raise (FileNotFoundError msg), cache_only_world)) ∧
  (∃ msg, Ui.run_dashboard
            (Ui.generate_buttons no_birth_date_serial no_date_of_birth
               example_env 28 GenerateDatabase) cache_only_world
          = (Raise (FileNotFoundError msg), cache_only_world)) ∧
  (∀ df, parquet_file cache_only_world = Some df →
         st_cache cache_only_world = None →
         (Database.load_base_data no_birth_date_serial no_date_of_birth
            cache_only_world).1 = Ok df) ∧
  (∀ w0 w1, config_import w0 = (Ok tt, w1) →
            w1 = w0 ∧ is_Some (excel_file w1) ∧
            ∀ msg, (Database.load_base_data no_birth_date_serial
                      no_date_of_birth w1).1
                   ≠ Raise (FileNotFoundError msg)).
Proof.
  assert (excel_file cache_only_world = None) as Hno by reflexivity.
  split; [exact Hno|].
  exact (excel_source_required no_birth_date_serial no_date_of_birth
           (Ui.generate_buttons no_birth_date_serial no_date_of_birth
              example_env 28 GenerateDatabase) cache_only_world Hno).
Defined.

(** * Further properties of the code *)

(** ** The mapping as a permutation of each super-block *)

Section marriage_structure.

Lemma marriage_village_bounds v c :
  let q := (v - 1) `div` 28 in
  28 * q + 1 ≤ marriage_village v c ≤ 28 * q + 28.
Proof.
  cbv zeta. unfold marriage_village.
  pose proof (Z.mod_pos_bound
                (v - (v - 1) `div` 28 * 28 + offset c - 1) 28 ltac:(lia)).
  lia.
Qed.

Lemma marriage_village_block v c :
  (marriage_village v c - 1) `div` 28 = (v - 1) `div` 28.
Proof.
  pose proof (marriage_village_bounds v c) as Hb. cbv zeta in Hb.
  set (q := (v - 1) `div` 28) in *.
  symmetry. apply (Z.div_unique _ 28 q (marriage_village v c - 1 - 28 * q)); lia.
Qed.

Lemma marriage_village_neq v c : marriage_village v c ≠ v.
Proof.
  unfold marriage_village.
  destruct (offset_odd_range c) as [Ha _]. pose proof (local_id_range v) as Hl.
  set (b := (v - 1) `div` 28 * 28) in *.
  set (l := v - b) in *. set (a := offset c) in *.
  pose proof (Z.div_mod (l + a - 1) 28 ltac:(lia)).
  pose proof (Z.mod_pos_bound (l + a - 1) 28 ltac:(lia)).
  lia.
Qed.

(** X1. With a village count that is a multiple of 28, the village a person
    of one of the villages 1..n marries into is again one of 1..n. *)
Theorem marriage_stays_within_village_count n v c :
  n `mod` 28 = 0 → 1 ≤ v ≤ n → 1 ≤ c →
  ∃ r, get_marriage_to_village_id v c = Ok r ∧ 1 ≤ r ≤ n.
Proof.
  intros Hn Hv Hc. rewrite get_marriage_valid by lia.
  eexists; split; [done|].
  pose proof (marriage_village_bounds v c) as Hb. cbv zeta in Hb.
  pose proof (Z.div_mod n 28 ltac:(lia)) as Hdiv. rewrite Hn in Hdiv.
  pose proof (Z.div_mod (v - 1) 28 ltac:(lia)).
  pose proof (Z.mod_pos_bound (v - 1) 28 ltac:(lia)).
  lia.
Qed.

Lemma marriage_stays_within_village_count_witness :
  56 `mod` 28 = 0 ∧ 1 ≤ 56 ≤ 56 ∧ 1 ≤ 196 ∧
  ∃ r, get_marriage_to_village_id 56 196 = Ok r ∧ 1 ≤ r ≤ 56.
Proof.
  split; [reflexivity|]. split; [lia|]. split; [lia|].
  apply (marriage_stays_within_village_count 56 56 196); [reflexivity|lia|lia].
Defined.

(** X2. For a fixed counter the mapping is a permutation of the villages:
    every village is the result for exactly one village id. *)
Theorem marriage_is_a_permutation c r :
  1 ≤ c → 1 ≤ r →
  ∃ v, get_marriage_to_village_id v c = Ok r ∧
       ∀ v', get_marriage_to_village_id v' c = Ok r → v' = v.
Proof.
  intros Hc Hr.
  destruct (offset_odd_range c) as [Ha _]. set (a := offset c) in *.
  set (q := (r - 1) `div` 28).
  pose proof (Z.div_mod (r - 1) 28 ltac:(lia)) as Hrq.
  pose proof (Z.mod_pos_bound (r - 1) 28 ltac:(lia)) as Hrm. fold q in Hrq.
  assert (0 ≤ q) as Hq by (apply Z.div_pos; lia).
  set (m := (r - 1) `mod` 28) in *.
  set (k := (m - a) `mod` 28).
  pose proof (Z.div_mod (m - a) 28 ltac:(lia)) as Hk.
  pose proof (Z.mod_pos_bound (m - a) 28 ltac:(lia)) as Hkb. fold k in Hk, Hkb.
  assert (∀ v', 1 ≤ v' → marriage_village v' c = r →
                v' = 28 * q + k + 1) as Huniq.
  { intros v' Hv' Hres.
    pose proof (marriage_village_block v' c) as Hblock. rewrite Hres in Hblock.
    fold q in Hblock. revert Hres. unfold marriage_village. fold a.
    rewrite <-Hblock.
    pose proof (Z.div_mod (v' - 1) 28 ltac:(lia)) as Hv.
    pose proof (Z.mod_pos_bound (v' - 1) 28 ltac:(lia)). rewrite <-Hblock in Hv.
    pose proof (Z.div_mod (v' - q * 28 + a - 1) 28 ltac:(lia)).
    pose proof (Z.mod_pos_bound (v' - q * 28 + a - 1) 28 ltac:(lia)).
    lia. }
  exists (28 * q + k + 1). split.
  - rewrite get_marriage_valid by lia. f_equal.
    unfold marriage_village. fold a.
    replace ((28 * q + k + 1 - 1) `div` 28) with q
      by (apply (Z.div_unique _ 28 q k); lia).
    replace (28 * q + k + 1 - q * 28 + a - 1) with (k + a) by lia.
    replace ((k + a) `mod` 28) with m; [lia|].
    apply (Z.mod_unique _ 28 ((k + a - m) `div` 28) m); [lia|].
    pose proof (Z.div_mod (k + a - m) 28 ltac:(lia)).
    assert ((k + a - m) `mod` 28 = 0); [|lia].
    replace (k + a - m) with (0 + (- ((m - a) `div` 28)) * 28) by lia.
    by rewrite Z.mod_add.
  - intros v' Hv'.
    destruct (decide (1 ≤ v')) as [Hpos|Hneg].
    + rewrite get_marriage_valid in Hv' by done. apply Huniq; [done|congruence].
    + destruct (get_marriage_raises v' c) as [msg Hmsg]; [lia|]. congruence.
Qed.

Lemma marriage_is_a_permutation_witness :
  1 ≤ 3 ∧ 1 ≤ 29 ∧
  ∃ v, get_marriage_to_village_id v 3 = Ok 29 ∧
       ∀ v', get_marriage_to_village_id v' 3 = Ok 29 → v' = v.
Proof.
  split; [lia|]. split; [lia|].
  apply (marriage_is_a_permutation 3 29); lia.
Defined.

(** X3. Every super-block is paired in the same way: moving the village 28
    further moves the result 28 further. *)
Theorem marriage_shift_by_super_block v c :
  1 ≤ v → 1 ≤ c →
  ∃ r, get_marriage_to_village_id v c = Ok r ∧
       get_marriage_to_village_id (v + 28) c = Ok (r + 28).
Proof.
  intros Hv Hc. rewrite !get_marriage_valid by lia.
  eexists; split; [done|]. f_equal. unfold marriage_village.
  replace (v + 28 - 1) with (v - 1 + 1 * 28) by lia.
  rewrite Z.div_add by lia.
  replace (v + 28 - ((v - 1) `div` 28 + 1) * 28)
    with (v - (v - 1) `div` 28 * 28) by lia.
  lia.
Qed.

Lemma marriage_shift_by_super_block_witness :
  1 ≤ 28 ∧ 1 ≤ 5 ∧
  ∃ r, get_marriage_to_village_id 28 5 = Ok r ∧
       get_marriage_to_village_id (28 + 28) 5 = Ok (r + 28).
Proof.
  split; [lia|]. split; [lia|].
  apply (marriage_shift_by_super_block 28 5); lia.
Defined.

Lemma offset_pair k : 0 ≤ k → offset (2 * k + 1) = offset (2 * k + 2).
Proof.
  intros Hk. unfold offset. cbv zeta.
  replace (2 * k + 1 - 1) with (2 * k) by lia.
  replace (2 * k + 2 - 1) with (2 * k + 1) by lia.
  pose proof (Z.div_mod (2 * k) 196 ltac:(lia)) as H1.
  pose proof (Z.mod_pos_bound (2 * k) 196 ltac:(lia)) as H2.
  set (j := (2 * k) `mod` 196) in *.
  assert ((2 * k + 1) `mod` 196 = j + 1) as ->.
  { symmetry. apply (Z.mod_unique _ 196 ((2 * k) `div` 196)); lia. }
  replace (j + 1 - 1) with j by lia. replace (j + 1 + 1 - 1) with (j + 1) by lia.
  pose proof (Z.div_mod j 28 ltac:(lia)) as H3.
  pose proof (Z.mod_pos_bound j 28 ltac:(lia)) as H4.
  set (b := j `div` 28) in *.
  assert ((j + 1) `div` 28 = b) as ->.
  { symmetry. apply (Z.div_unique _ 28 b (j `mod` 28 + 1)); lia. }
  set (p := j + 1 - 28 * b).
  replace (j + 1 + 1 - 28 * b) with (p + 1) by (unfold p; lia).
  pose proof (Z.div_mod p 4 ltac:(lia)) as H5.
  pose proof (Z.mod_pos_bound p 4 ltac:(lia)) as H6.
  pose proof (Z.div_mod (p + 1) 4 ltac:(lia)) as H7.
  pose proof (Z.mod_pos_bound (p + 1) 4 ltac:(lia)) as H8.
  assert (p `mod` 4 = 1 ∨ p `mod` 4 = 3) as Hodd by (unfold p in *; lia).
  destruct Hodd as [Hp|Hp]; rewrite Hp in *.
  - assert ((p + 1) `mod` 4 = 2) as -> by lia. done.
  - assert ((p + 1) `mod` 4 = 0) as -> by lia. done.
Qed.

(** X4. Counters come in pairs: the counters [2k+1] and [2k+2] are sent to
    the same village. *)
Theorem marriage_pairs_counters v k :
  1 ≤ v → 0 ≤ k →
  get_marriage_to_village_id v (2 * k + 1)
  = get_marriage_to_village_id v (2 * k + 2).
Proof.
  intros Hv Hk. rewrite !get_marriage_valid by lia.
  unfold marriage_village. by rewrite offset_pair.
Qed.

Lemma marriage_pairs_counters_witness :
  1 ≤ 30 ∧ 0 ≤ 100 ∧
  get_marriage_to_village_id 30 (2 * 100 + 1)
  = get_marriage_to_village_id 30 (2 * 100 + 2).
Proof.
  split; [lia|]. split; [lia|].
  apply (marriage_pairs_counters 30 100); lia.
Defined.

End marriage_structure.

(** ** The base-data loader *)

Section loader_theorems.

Context (birth_date_serial : string → option Z) (date_of_birth : Z → string).

Abbreviation load := (load_base_data birth_date_serial date_of_birth).
Abbreviation normalise' := (normalise birth_date_serial date_of_birth).

Lemma mixed_cells_normalise (sheet : list source_row) :
  mixed_cells (b_BIRTH_DATE <$> (normalise' <$> sheet))
  = mixed_cells (src_BIRTH_DATE <$> sheet).
Proof. by rewrite <-list_fmap_compose. Qed.

(** X5. The first load, with the Excel source present and no cache, from a
    sheet [FINAL_POPULATION] whose integer columns are int64 columns and
    whose birth dates do not mix dates and text: every row of the sheet
    becomes one base record, in order and with its counter, identifiers and
    birth date; a row with an empty birth date has no serial, and a record
    has a formatted date exactly when it has a serial; the result is written
    to the parquet cache and memoised, and the Excel source is left as it
    was. *)
Theorem first_load_builds_cache w book sheet :
  excel_file w = Some book → book !! "FINAL_POPULATION" = Some sheet →
  parquet_file w = None → st_cache w = None →
  sheet_fits_int64 sheet →
  mixed_cells (src_BIRTH_DATE <$> sheet) = false →
  ∃ df w',
    load_base_data birth_date_serial date_of_birth w = (Ok df, w') ∧
    parquet_file w' = Some df ∧ st_cache w' = Some df ∧
    excel_file w' = Some book ∧
    length df = length sheet ∧
    (∀ i r, sheet !! i = Some r →
       ∃ b, df !! i = Some b ∧
            b_COUNTER b = src_COUNTER r ∧ b_FAMILY_ID b = src_FAMILY_ID r ∧
            b_PERSON_ID b = src_PERSON_ID r ∧
            b_BIRTH_DATE b = src_BIRTH_DATE r ∧
            (src_BIRTH_DATE r = EmptyCell → b_BIRTH_DATE_SERIAL b = None) ∧
            (b_Date_of_Birth b = None ↔ b_BIRTH_DATE_SERIAL b = None)).
Proof.
  intros Hex Hsheet Hpq Hcache _ Hmixed.
  exists (normalise' <$> sheet). eexists. split.
  { pose proof (load_base_data_cases birth_date_serial date_of_birth w) as Hl.
    rewrite Hcache, Hpq, Hex, Hsheet in Hl. cbv zeta in Hl.
    by rewrite mixed_cells_normalise, Hmixed in Hl. }
  simpl. rewrite length_fmap. repeat split; try done.
  intros i r Hr. exists (normalise' r).
  rewrite list_lookup_fmap, Hr.
  split; [done|]. split; [done|]. split; [done|]. split; [done|].
  split; [done|]. split.
  - unfold normalise. simpl. by intros ->.
  - unfold normalise. simpl.
    destruct (src_BIRTH_DATE r) as [|x|x]; [|destruct (birth_date_serial x)..];
      done.
Qed.

(** X6. A successful load is repeatable: a second call returns the same rows
    and changes nothing more; and when the first call had to run the body
    (nothing was memoised), the rows are in the parquet cache, so that after
    the memoised result has expired the call still returns the same rows. *)
Theorem load_is_repeatable w df w' :
  load_base_data birth_date_serial date_of_birth w = (Ok df, w') →
  load_base_data birth_date_serial date_of_birth w' = (Ok df, w') ∧
  (st_cache w = None →
   load_base_data birth_date_serial date_of_birth (set_st_cache None w')
   = (Ok df, w')).
Proof.
  loader_cases w; rewrite ?Hsheet, ?Hmixed; simpl; intros; simplify_eq;
    simpl; done.
Qed.

(** X7. The failures of the loader.  It raises [FileNotFoundError] exactly
    when there is nothing to read: no memoised result, no parquet cache and
    no Excel source.  With the Excel source as the only thing to read, a
    workbook without the sheet [FINAL_POPULATION] makes it raise
    [ValueError], and a sheet whose birth dates mix dates and text makes it
    raise pyarrow's exception.  Whatever it raises, it has not run with a
    memoised result or a parquet cache, and it leaves the store as it
    was: no parquet cache is written. *)
Theorem load_failures w :
  ((∃ msg, (load_base_data birth_date_serial date_of_birth w).1
           = Raise (FileNotFoundError msg))
   ↔ st_cache w = None ∧ parquet_file w = None ∧ excel_file w = None) ∧
  (∀ book, st_cache w = None → parquet_file w = None →
     excel_file w = Some book →
     match book !! "FINAL_POPULATION" with
     | None =>
         ∃ msg, (load_base_data birth_date_serial date_of_birth w).1
                = Raise (ValueError msg)
     | Some sheet =>
         mixed_cells (src_BIRTH_DATE <$> sheet) = true →
         ∃ msg, (load_base_data birth_date_serial date_of_birth w).1
                = Raise (ArrowException msg)
     end) ∧
  (∀ e, (load_base_data birth_date_serial date_of_birth w).1 = Raise e →
        (load_base_data birth_date_serial date_of_birth w).2 = w ∧
        st_cache w = None ∧ parquet_file w = None).
Proof.
  split; [|split].
  - loader_cases w; rewrite ?Hsheet, ?Hmixed; simpl;
      (split; [intros [? ?]; by simplify_eq|intros (?&?&?); by simplify_eq])
      || (split; [done|]; intros _; by eexists).
  - pose proof (load_base_data_cases birth_date_serial date_of_birth w) as Hl.
    cbv zeta in Hl.
    intros book Hc Hp Hex. rewrite Hc, Hp, Hex in Hl.
    destruct (book !! "FINAL_POPULATION") as [sheet|].
    + intros Hmixed. rewrite mixed_cells_normalise, Hmixed in Hl.
      destruct Hl as [msg ->]. by exists msg.
    + destruct Hl as [msg ->]. by exists msg.
  - loader_cases w; rewrite ?Hsheet, ?Hmixed; simpl; intros e He;
      by simplify_eq.
Qed.

End loader_theorems.

(** The two failures of the conversion, on a sheet that mixes a date and a
    text and on a workbook without the sheet. *)
Lemma load_failures_examples :
  (∃ msg, Database.load_base_data no_birth_date_serial no_date_of_birth
            mixed_sheet_world
          = (Raise (ArrowException msg), mixed_sheet_world)) ∧
  (∃ msg, Database.load_base_data no_birth_date_serial no_date_of_birth
            no_sheet_world
          = (Raise (ValueError msg), no_sheet_world)).
Proof. split; eexists; vm_compute; reflexivity. Qed.

Lemma first_load_builds_cache_witness :
  excel_file first_load_world = Some {[ "FINAL_POPULATION" := example_sheet ]} ∧
  ({[ "FINAL_POPULATION" := example_sheet ]} : workbook) !! "FINAL_POPULATION"
    = Some example_sheet ∧
  parquet_file first_load_world = None ∧ st_cache first_load_world = None ∧
  sheet_fits_int64 example_sheet ∧
  mixed_cells (src_BIRTH_DATE <$> example_sheet) = false ∧
  ∃ df w',
    Database.load_base_data no_birth_date_serial no_date_of_birth first_load_world
      = (Ok df, w') ∧
    parquet_file w' = Some df ∧ st_cache w' = Some df ∧
    excel_file w' = Some {[ "FINAL_POPULATION" := example_sheet ]} ∧
    length df = length example_sheet ∧
    (∀ i r, example_sheet !! i = Some r →
       ∃ b, df !! i = Some b ∧
            b_COUNTER b = src_COUNTER r ∧ b_FAMILY_ID b = src_FAMILY_ID r ∧
            b_PERSON_ID b = src_PERSON_ID r ∧
            b_BIRTH_DATE b = src_BIRTH_DATE r ∧
            (src_BIRTH_DATE r = EmptyCell → b_BIRTH_DATE_SERIAL b = None) ∧
            (b_Date_of_Birth b = None ↔ b_BIRTH_DATE_SERIAL b = None)).
Proof.
  assert (excel_file first_load_world
          = Some {[ "FINAL_POPULATION" := example_sheet ]}) as Hex
    by reflexivity.
  assert (({[ "FINAL_POPULATION" := example_sheet ]} : workbook)
            !! "FINAL_POPULATION" = Some example_sheet) as Hsheet
    by (vm_compute; reflexivity).
  assert (parquet_file first_load_world = None) as Hpq by reflexivity.
  assert (st_cache first_load_world = None) as Hcache by reflexivity.
  assert (sheet_fits_int64 example_sheet) as Hfit
    by (unfold sheet_fits_int64, example_sheet; repeat constructor).
  assert (mixed_cells (src_BIRTH_DATE <$> example_sheet) = false) as Hmixed
    by reflexivity.
  split; [exact Hex|]. split; [exact Hsheet|]. split; [exact Hpq|].
  split; [exact Hcache|]. split; [exact Hfit|]. split; [exact Hmixed|].
  exact (first_load_builds_cache no_birth_date_serial no_date_of_birth
           first_load_world _ example_sheet Hex Hsheet Hpq Hcache Hfit Hmixed).
Defined.

Lemma load_is_repeatable_witness :
  let r := Database.load_base_data no_birth_date_serial no_date_of_birth
             first_load_world in
  r = (Ok (normalise no_birth_date_serial no_date_of_birth <$> example_sheet), r.2) ∧
  Database.load_base_data no_birth_date_serial no_date_of_birth r.2
    = (Ok (normalise no_birth_date_serial no_date_of_birth <$> example_sheet), r.2) ∧
  (st_cache first_load_world = None →
   Database.load_base_data no_birth_date_serial no_date_of_birth
     (set_st_cache None r.2)
   = (Ok (normalise no_birth_date_serial no_date_of_birth <$> example_sheet), r.2)).
Proof.
  cbv zeta.
  assert (Database.load_base_data no_birth_date_serial no_date_of_birth
            first_load_world
          = (Ok (normalise no_birth_date_serial no_date_of_birth <$> example_sheet),
             (Database.load_base_data no_birth_date_serial no_date_of_birth
                first_load_world).2)) as Hload by (vm_compute; reflexivity).
  split; [exact Hload|].
  exact (load_is_repeatable no_birth_date_serial no_date_of_birth
           first_load_world _ _ Hload).
Defined.

(** ** What a successful run leaves behind *)

Section run_outcome.

Context (birth_date_serial : string → option Z) (date_of_birth : Z → string).
Context (E : env).

Abbreviation generate :=
  (Database.generate_database birth_date_serial date_of_birth E).

(** X8. The Generation Ledger is append-only: a run that returns has added
    exactly one entry, at the end of the list of the user who ran it; the
    earlier entries of that user keep their place and every other user's
    list is as it was.  The copy of the history in the session is the one
    written to the file. *)
Theorem generation_appends_to_ledger n w w' :
  Database.generate_database birth_date_serial date_of_birth E n w
    = (Ok tt, w') →
  let user := s_username (session w) in
  let path := db_file_name user (uuid8 E) in
  let h := default ∅ (history_file w) in
  ∃ h',
    history_file w' = Some h' ∧ s_history (session w') = h' ∧
    h' !! user = Some (default [] (h !! user)
                       ++ [HistoryEntry (uuid8 E) path n (now E 0)]) ∧
    ∀ u, u ≠ user → h' !! u = h !! u.
Proof.
  intros Hrun user path h.
  destruct (generate_database_ok_inv _ _ _ _ _ _ Hrun)
    as (_ & base & Hload & _).
  destruct (generate_database_success _ _ _ n w base w' Hload Hrun)
    as (_ & _ & _ & Hh & Hs & _).
  eexists. split; [done|]. rewrite Hs. simpl.
  split; [done|]. split; [apply lookup_insert_eq|].
  intros u Hu. by apply lookup_insert_ne.
Qed.

(** X9. A run that returns has written one database file and nothing else:
    every other database file and the Excel source are as they were, and
    the new file, with the table and its index, takes the place of whatever
    was at its path. *)
Theorem generation_leaves_other_files n w base w' :
  (Database.load_base_data birth_date_serial date_of_birth w).1 = Ok base →
  Database.generate_database birth_date_serial date_of_birth E n w
    = (Ok tt, w') →
  let path := db_file_name (s_username (session w)) (uuid8 E) in
  (∀ p, p ≠ path → db_files w' !! p = db_files w !! p) ∧
  excel_file w' = excel_file w ∧
  db_files w' !! path
    = Some (Database (Some (1 + Z.of_nat (length (expected_rows n base 1))))
              (Some (expected_rows n base 1)) true).
Proof.
  intros Hload Hrun path.
  destruct (generate_database_success _ _ _ n w base w' Hload Hrun)
    as (_ & _ & Hdb & _ & _ & _ & Hex & _).
  rewrite Hdb. split; [|split; [done|]].
  - intros p Hp. by apply lookup_insert_ne.
  - apply lookup_insert_eq.
Qed.

(** X10. After a run that returns the session points at the new file, which
    exists; the version counter of the session has gone up by one; and the
    activity log has one more line, a GENERATE_DB entry of the user whose
    record count is the number of rows of the table, [n * B] for a
    non-negative village count [n]. *)
Theorem generation_updates_session_and_log n w base w' :
  (Database.load_base_data birth_date_serial date_of_birth w).1 = Ok base →
  Database.generate_database birth_date_serial date_of_birth E n w
    = (Ok tt, w') →
  let user := s_username (session w) in
  let path := db_file_name user (uuid8 E) in
  ∃ rows,
    read_population path w' = Some rows ∧
    s_username (session w') = user ∧
    s_db_path (session w') = Some path ∧
    s_db_generated (session w') = true ∧
    s_db_version (session w') = s_db_version (session w) + 1 ∧
    s_num_villages (session w') = n ∧
    s_db_id (session w') = Some (uuid8 E) ∧
    log_file w' = log_file w
                  ++ [LogEntry (now E 1) user "GENERATE_DB" n
                        (Z.of_nat (length rows))] ∧
    (0 ≤ n → Z.of_nat (length rows) = n * Z.of_nat (length base)).
Proof.
  intros Hload Hrun user path.
  destruct (generate_database_success _ _ _ n w base w' Hload Hrun)
    as (_ & _ & Hdb & _ & Hs & Hlog & _).
  exists (expected_rows n base 1).
  split; [unfold read_population; by rewrite Hdb, lookup_insert_eq|].
  rewrite Hs, Hlog. simpl. repeat split; try done.
  intros Hn. rewrite expected_rows_length. lia.
Qed.

(** X11. A village count of zero or less is not refused: the run succeeds,
    the table is created empty, and the run is recorded in the ledger with
    that count. *)
Theorem generation_with_no_villages n w base :
  n ≤ 0 →
  (∀ op, fails E op = false) →
  (Database.load_base_data birth_date_serial date_of_birth w).1 = Ok base →
  valid_base base →
  let user := s_username (session w) in
  let path := db_file_name user (uuid8 E) in
  ∃ w' h',
    generate n w = (Ok tt, w') ∧
    read_population path w' = Some [] ∧
    history_file w' = Some h' ∧
    (h' !! user ≫= last)
      = Some (HistoryEntry (uuid8 E) path n (now E 0)).
Proof.
  intros Hn Hfails Hload Hbase user path.
  assert (expected_rows n base 1 = []) as Hnil.
  { apply length_zero_iff_nil. rewrite expected_rows_length. lia. }
  destruct (generate_database_outcome _ _ _ n w base Hfails Hload)
    as (w' & Hrun & Hdb & Hh & _).
  { by apply select_query_is_ok. }
  { by rewrite Hnil. }
  eexists w', _. split; [done|].
  split; [|split; [done|]].
  - unfold read_population. by rewrite Hdb, lookup_insert_eq, Hnil.
  - rewrite lookup_insert_eq. simpl. by rewrite last_snoc.
Qed.

Lemma collect_fmap_raise {A B} (f : A → result B) (l : list A) e :
  (∀ x, x ∈ l → is_ok (f x) ∨ f x = Raise e) →
  (∃ x, x ∈ l ∧ f x = Raise e) →
  collect (f <$> l) = Raise e.
Proof.
  induction l as [|x l IH]; intros Hall (y & Hy & Hraise).
  { by apply elem_of_nil in Hy. }
  rewrite fmap_cons. cbn [collect].
  destruct (Hall x) as [Hok|Hx]; [by left| |by rewrite Hx].
  destruct (f x) as [b|e'] eqn:Hfx; [|done].
  apply elem_of_cons in Hy as [->|Hy]; [congruence|].
  rewrite IH; [done| |by exists y].
  intros z Hz. apply Hall. by right.
Qed.

Lemma select_query_bad_counter n base :
  1 ≤ n → Exists (λ b, b_COUNTER b < 1) base →
  ∃ msg, select_query n base = Raise (InvalidInputException msg).
Proof.
  intros Hn (b & Hb & Hbad)%Exists_exists. unfold select_query.
  rewrite (order_by_cross_join n base) by done.
  eexists. apply collect_fmap_raise.
  - intros [v [idx b']] Hx. unfold cross_join in Hx.
    apply list_elem_of_In, in_prod_iff in Hx as [Hv _].
    apply list_elem_of_In, elem_of_seqZ in Hv.
    unfold select_row, get_marriage_id, get_marriage_to_village_id.
    destruct (Z.leb_spec 1 v); [|lia]. cbn [negb].
    destruct (Z.leb_spec 1 (b_COUNTER b')); cbn [negb]; [by left|by right].
  - apply list_elem_of_lookup in Hb as [i Hi].
    exists (1, (Z.of_nat i, b)). split.
    + unfold cross_join. apply list_elem_of_In, in_prod_iff. split.
      * apply list_elem_of_In, elem_of_seqZ. lia.
      * apply list_elem_of_In, list_elem_of_lookup. exists i.
        by rewrite base_with_idx_lookup, Hi.
    + unfold select_row, get_marriage_id, get_marriage_to_village_id. simpl.
      destruct (Z.leb_spec 1 (b_COUNTER b)); [lia|done].
Qed.

(** X12. A base record whose counter is below 1 stops the run, the
    integers of the base dataset and the village count being such as fit
    the columns: with at least one village the INSERT fails with DuckDB's
    [InvalidInputException], which wraps the [ValueError] of the mapping.
    No ledger entry is written and the session and the log are as they
    were, but the new file stays behind with its empty table. *)
Theorem generation_aborts_on_bad_counter n w base :
  1 ≤ n ≤ INT32_MAX - 27 →
  Exists (λ b, b_COUNTER b < 1) base →
  base_fits_int32 base →
  (∀ op, fails E op = false) →
  (Database.load_base_data birth_date_serial date_of_birth w).1 = Ok base →
  let path := db_file_name (s_username (session w)) (uuid8 E) in
  ∃ msg w',
    generate n w = (Raise (InvalidInputException msg), w') ∧
    ledger_untouched w w' ∧
    read_population path w' = Some [].
Proof.
  intros [Hn _] Hbad _ Hfails Hload path.
  destruct (select_query_bad_counter n base Hn Hbad) as [msg Hsel].
  exists msg.
  unfold Database.generate_database. fold path.
  rewrite (bind_ok get _ w w w) by done. cbv zeta. fold path.
  rewrite (bind_ok _ _ w tt (set_db_files (delete path (db_files w)) w)).
  2:{ rewrite <-(remove_old_file path w) by (by do 2 eexists).
      unfold when. by destruct (path_exists path w). }
  destruct (Database.load_base_data birth_date_serial date_of_birth w)
    as [r w2] eqn:Hl. simpl in Hload. subst r.
  pose proof (load_base_data_frame birth_date_serial date_of_birth w)
    as (_ & Hhist & Hsess & Hlog & _).
  rewrite Hl in Hhist, Hsess, Hlog. simpl in Hhist, Hsess, Hlog.
  rewrite (bind_ok _ _ _ base (set_db_files (delete path (db_files w)) w2)).
  2:{ by rewrite load_base_data_set_db_files, Hl. }
  erewrite bind_ok;
    [|apply duckdb_connect_fresh; [done|apply lookup_delete_eq]]. tidy.
  do 2 (erewrite bind_ok;
        [|eapply db_exec_run; [done|apply lookup_insert_eq|done]]; tidy).
  erewrite bind_raise.
  2:{ eapply db_exec_run; [done|apply lookup_insert_eq|].
      unfold insert_into. cbn [db_seq db_population db_idx_village].
      by rewrite Hsel. }
  eexists. split; [reflexivity|]. unfold ledger_untouched, read_population.
  tidy. by rewrite lookup_insert_eq.
Qed.

End run_outcome.

Lemma generation_appends_to_ledger_witness :
  let w' := (Database.generate_database no_birth_date_serial no_date_of_birth
               example_env 28 history_world).2 in
  Database.generate_database no_birth_date_serial no_date_of_birth example_env
    28 history_world = (Ok tt, w') ∧
  let user := s_username (session history_world) in
  let path := db_file_name user (uuid8 example_env) in
  let h := default ∅ (history_file history_world) in
  ∃ h',
    history_file w' = Some h' ∧ s_history (session w') = h' ∧
    h' !! user = Some (default [] (h !! user)
                       ++ [HistoryEntry (uuid8 example_env) path 28
                             (now example_env 0)]) ∧
    ∀ u, u ≠ user → h' !! u = h !! u.
Proof.
  cbv zeta.
  assert (Database.generate_database no_birth_date_serial no_date_of_birth
            example_env 28 history_world
          = (Ok tt, (Database.generate_database no_birth_date_serial
                       no_date_of_birth example_env 28 history_world).2))
    as Hrun by (vm_compute; reflexivity).
  split; [exact Hrun|].
  exact (generation_appends_to_ledger no_birth_date_serial no_date_of_birth
           example_env 28 history_world _ Hrun).
Defined.

Lemma generation_leaves_other_files_witness :
  let w' := (Database.generate_database no_birth_date_serial no_date_of_birth
               example_env 28 history_world).2 in
  (Database.load_base_data no_birth_date_serial no_date_of_birth history_world).1
    = Ok example_base ∧
  Database.generate_database no_birth_date_serial no_date_of_birth example_env
    28 history_world = (Ok tt, w') ∧
  let path := db_file_name (s_username (session history_world))
                (uuid8 example_env) in
  (∀ p, p ≠ path → db_files w' !! p = db_files history_world !! p) ∧
  excel_file w' = excel_file history_world ∧
  db_files w' !! path
    = Some (Database
              (Some (1 + Z.of_nat (length (expected_rows 28 example_base 1))))
              (Some (expected_rows 28 example_base 1)) true).
Proof.
  cbv zeta.
  assert ((Database.load_base_data no_birth_date_serial no_date_of_birth
             history_world).1 = Ok example_base) as Hload by reflexivity.
  assert (Database.generate_database no_birth_date_serial no_date_of_birth
            example_env 28 history_world
          = (Ok tt, (Database.generate_database no_birth_date_serial
                       no_date_of_birth example_env 28 history_world).2))
    as Hrun by (vm_compute; reflexivity).
  split; [exact Hload|]. split; [exact Hrun|].
  exact (generation_leaves_other_files no_birth_date_serial no_date_of_birth
           example_env 28 history_world example_base _ Hload Hrun).
Defined.

Lemma generation_updates_session_and_log_witness :
  let w' := (Database.generate_database no_birth_date_serial no_date_of_birth
               example_env 56 example_world).2 in
  (Database.load_base_data no_birth_date_serial no_date_of_birth example_world).1
    = Ok example_base ∧
  Database.generate_database no_birth_date_serial no_date_of_birth example_env
    56 example_world = (Ok tt, w') ∧
  let user := s_username (session example_world) in
  let path := db_file_name user (uuid8 example_env) in
  ∃ rows,
    read_population path w' = Some rows ∧
    s_username (session w') = user ∧
    s_db_path (session w') = Some path ∧
    s_db_generated (session w') = true ∧
    s_db_version (session w') = s_db_version (session example_world) + 1 ∧
    s_num_villages (session w') = 56 ∧
    s_db_id (session w') = Some (uuid8 example_env) ∧
    log_file w' = log_file example_world
                  ++ [LogEntry (now example_env 1) user "GENERATE_DB" 56
                        (Z.of_nat (length rows))] ∧
    (0 ≤ 56 → Z.of_nat (length rows) = 56 * Z.of_nat (length example_base)).
Proof.
  cbv zeta.
  assert ((Database.load_base_data no_birth_date_serial no_date_of_birth
             example_world).1 = Ok example_base) as Hload by reflexivity.
  assert (Database.generate_database no_birth_date_serial no_date_of_birth
            example_env 56 example_world
          = (Ok tt, (Database.generate_database no_birth_date_serial
                       no_date_of_birth example_env 56 example_world).2))
    as Hrun by (vm_compute; reflexivity).
  split; [exact Hload|]. split; [exact Hrun|].
  exact (generation_updates_session_and_log no_birth_date_serial
           no_date_of_birth example_env 56 example_world example_base _
           Hload Hrun).
Defined.

Lemma generation_with_no_villages_witness :
  0 ≤ 0 ∧
  (∀ op, fails example_env op = false) ∧
  (Database.load_base_data no_birth_date_serial no_date_of_birth example_world).1
    = Ok example_base ∧
  valid_base example_base ∧
  let user := s_username (session example_world) in
  let path := db_file_name user (uuid8 example_env) in
  ∃ w' h',
    Database.generate_database no_birth_date_serial no_date_of_birth example_env
      0 example_world = (Ok tt, w') ∧
    read_population path w' = Some [] ∧
    history_file w' = Some h' ∧
    (h' !! user ≫= last)
      = Some (HistoryEntry (uuid8 example_env) path 0 (now example_env 0)).
Proof.
  assert (0 ≤ 0) as Hn by lia.
  assert (∀ op, fails example_env op = false) as Hfails by reflexivity.
  assert ((Database.load_base_data no_birth_date_serial no_date_of_birth
             example_world).1 = Ok example_base) as Hload by reflexivity.
  assert (valid_base example_base) as Hbase.
  { unfold valid_base, example_base. repeat constructor; simpl; lia. }
  split; [exact Hn|]. split; [exact Hfails|]. split; [exact Hload|].
  split; [exact Hbase|].
  exact (generation_with_no_villages no_birth_date_serial no_date_of_birth
           example_env 0 example_world example_base Hn Hfails Hload Hbase).
Defined.

Lemma generation_aborts_on_bad_counter_witness :
  1 ≤ 28 ≤ INT32_MAX - 27 ∧
  Exists (λ b, b_COUNTER b < 1) bad_base ∧
  base_fits_int32 bad_base ∧
  (∀ op, fails vector_env op = false) ∧
  (Database.load_base_data no_birth_date_serial no_date_of_birth bad_base_world).1
    = Ok bad_base ∧
  let path := db_file_name (s_username (session bad_base_world))
                (uuid8 vector_env) in
  ∃ msg w',
    Database.generate_database no_birth_date_serial no_date_of_birth vector_env
      28 bad_base_world
    = (Raise (InvalidInputException msg), w') ∧
    ledger_untouched bad_base_world w' ∧
    read_population path w' = Some [].
Proof.
  assert (1 ≤ 28 ≤ INT32_MAX - 27) as Hn by (unfold INT32_MAX; lia).
  assert (Exists (λ b, b_COUNTER b < 1) bad_base) as Hbad.
  { unfold bad_base. apply Exists_cons_tl, Exists_cons_hd. simpl. lia. }
  assert (base_fits_int32 bad_base) as Hfit
    by (unfold base_fits_int32, bad_base; repeat constructor).
  assert (∀ op, fails vector_env op = false) as Hfails by reflexivity.
  assert ((Database.load_base_data no_birth_date_serial no_date_of_birth
             bad_base_world).1 = Ok bad_base) as Hload by reflexivity.
  split; [exact Hn|]. split; [exact Hbad|]. split; [exact Hfit|].
  split; [exact Hfails|]. split; [exact Hload|].
  exact (generation_aborts_on_bad_counter no_birth_date_serial no_date_of_birth
           vector_env 28 bad_base_world bad_base Hn Hbad Hfit Hfails Hload).
Defined.

(** ** The table: villages, marriages and the overall gender ratio *)

Section table_facts.

Implicit Types (base : list base_record) (vs : list Z).
Implicit Types (bs : list (Z * base_record)).

Local Abbreviation in_village v :=
  (λ x : Z * (Z * base_record), x.1 = v).
Local Abbreviation of_gender g :=
  (λ x : Z * (Z * base_record), gender_case x.2.1 x.1 = g).
Local Abbreviation in_cell g v :=
  (λ x : Z * (Z * base_record), x.1 = v ∧ gender_case x.2.1 x.1 = g).

Lemma cross_join_app vs1 vs2 bs :
  cross_join (vs1 ++ vs2) bs = cross_join vs1 bs ++ cross_join vs2 bs.
Proof.
  unfold cross_join. induction vs1 as [|v vs1 IH]; [done|].
  simpl. by rewrite IH, app_assoc.
Qed.

Lemma filter_own_village v bs :
  filter (in_village v) (map (pair v) bs) = map (pair v) bs.
Proof.
  induction bs as [|b bs IH]; [done|].
  simpl. rewrite filter_cons_True by done. by rewrite IH.
Qed.

Lemma filter_foreign_village v v' bs :
  v' ≠ v → filter (in_village v) (map (pair v') bs) = [].
Proof.
  intros Hne. induction bs as [|b bs IH]; [done|].
  simpl. by rewrite filter_cons_False.
Qed.

Lemma village_count_cross_join v vs bs :
  StronglySorted Z.lt vs →
  length (filter (in_village v) (cross_join vs bs))
  = if decide (v ∈ vs) then length bs else 0%nat.
Proof.
  induction 1 as [|v' vs Hvs IH Hv']; [done|].
  unfold cross_join in *. simpl. rewrite filter_app, length_app.
  rewrite Forall_forall in Hv'.
  destruct (decide (v' = v)) as [->|Hne].
  - rewrite filter_own_village, length_map, IH.
    destruct (decide (v ∈ v :: vs)) as [_|Hn]; [|exfalso; apply Hn; left].
    destruct (decide (v ∈ vs)) as [Hin|_]; [specialize (Hv' _ Hin)|]; lia.
  - rewrite filter_foreign_village by done. rewrite IH. simpl.
    destruct (decide (v ∈ vs)) as [Hin|Hout],
             (decide (v ∈ v' :: vs)) as [Hin'|Hout']; try done.
    + exfalso. apply Hout'. by right.
    + apply elem_of_cons in Hin' as [?|?]; [congruence|done].
Qed.

Lemma village_population_expected_rows v n base start :
  village_population v (expected_rows n base start)
  = if decide (1 ≤ v ≤ n) then Z.of_nat (length base) else 0.
Proof.
  unfold village_population, expected_rows.
  rewrite (length_filter_imap _ (in_village v)) by done.
  rewrite village_count_cross_join by apply villages_sorted.
  rewrite base_with_idx_length. unfold villages.
  destruct (decide (v ∈ seqZ 1 (n + 1 - 1))) as [Hin|Hout];
    rewrite elem_of_seqZ in *; case_decide; try done; lia.
Qed.

Lemma cells_partition_village v (l : list (Z * (Z * base_record))) :
  (length (filter (in_cell MALE v) l) + length (filter (in_cell FEMALE v) l))%nat
  = length (filter (in_village v) l).
Proof.
  induction l as [|[v' [idx b]] l IH]; [done|].
  rewrite !filter_cons. simpl.
  destruct (gender_case idx v') eqn:Hg;
    repeat case_decide; try (exfalso; intuition congruence);
    cbn [length]; lia.
Qed.

Lemma gender_case_first_row v :
  1 ≤ v → (gender_case 0 v = MALE ↔ v `mod` 2 = 1).
Proof.
  intros Hv. rewrite (gender_case_spec 0 v) by lia.
  case_bool_decide as H; split; try done; intros; tauto.
Qed.

Lemma cross_join_signed_balance v vs base :
  StronglySorted Z.lt vs → v ∈ vs →
  let d := Z.of_nat (length (filter (in_cell MALE v)
                               (cross_join vs (base_with_idx base))))
           - Z.of_nat (length (filter (in_cell FEMALE v)
                                 (cross_join vs (base_with_idx base)))) in
  if decide (gender_case 0 v = MALE) then 0 ≤ d ≤ 1 else -1 ≤ d ≤ 0.
Proof.
  induction 1 as [|v' vs Hvs IH Hv']; intros Hin; [by apply elem_of_nil in Hin|].
  cbv zeta in *. unfold cross_join in *. simpl.
  rewrite !filter_app, !length_app.
  destruct (decide (v' = v)) as [->|Hne].
  - rewrite !(filter_other_villages _ v vs)
      by (eapply Forall_impl; [done|]; simpl; lia).
    pose proof (village_block_balance v base 0) as Hblock.
    cbv zeta in Hblock. cbn [Nat.add] in Hblock.
    fold (base_with_idx base) in Hblock.
    change (pair v) with (λ y : Z * base_record, (v, y)) in Hblock.
    cbn [length]. change (Z.of_nat 0) with 0 in Hblock.
    case_decide; lia.
  - rewrite !filter_other_village by done. simpl.
    apply elem_of_cons in Hin as [?|Hin]; [congruence|].
    specialize (IH Hin). case_decide; lia.
Qed.

Lemma gender_count_exact g v n base start :
  1 ≤ v ≤ n →
  gender_count g v (expected_rows n base start)
  = if bool_decide ((g = MALE) ↔ (v `mod` 2 = 1))
    then (Z.of_nat (length base) + 1) `div` 2
    else Z.of_nat (length base) `div` 2.
Proof.
  intros Hv.
  pose proof (village_population_expected_rows v n base start) as Hpop.
  rewrite decide_True in Hpop by done.
  unfold village_population, expected_rows in Hpop.
  rewrite (length_filter_imap _ (in_village v)) in Hpop by done.
  rewrite <-cells_partition_village in Hpop.
  assert (v ∈ villages n) as Hin by (apply elem_of_seqZ; lia).
  pose proof (cross_join_signed_balance v (villages n) base
                (villages_sorted n) Hin) as Hbal. cbv zeta in Hbal.
  pose proof (gender_case_first_row v ltac:(lia)) as Hfirst.
  rewrite !gender_count_expected_rows.
  set (m := length (filter (in_cell MALE v) _)) in *.
  set (f := length (filter (in_cell FEMALE v) _)) in *.
  set (B := Z.of_nat (length base)) in *.
  pose proof (Z.div_mod B 2 ltac:(lia)).
  pose proof (Z.mod_pos_bound B 2 ltac:(lia)).
  pose proof (Z.div_mod (B + 1) 2 ltac:(lia)).
  pose proof (Z.mod_pos_bound (B + 1) 2 ltac:(lia)).
  destruct g; case_bool_decide as Hg; case_decide as Hd;
    try (exfalso; intuition congruence); lia.
Qed.

(** The two villages [v] and [v+1] together hold every base row once in each
    gender. *)
Lemma gender_case_next_village idx v :
  0 ≤ v → gender_case idx (v + 1) ≠ gender_case idx v.
Proof.
  intros Hv. unfold gender_case.
  assert ((Z.rem (v + 1) 2 =? 1) = negb (Z.rem v 2 =? 1)) as ->.
  { rewrite !Z.rem_mod_nonneg by lia.
    pose proof (Z.div_mod v 2 ltac:(lia)).
    pose proof (Z.mod_pos_bound v 2 ltac:(lia)).
    pose proof (Z.div_mod (v + 1) 2 ltac:(lia)).
    pose proof (Z.mod_pos_bound (v + 1) 2 ltac:(lia)).
    destruct (Z.eqb_spec ((v + 1) `mod` 2) 1),
             (Z.eqb_spec (v `mod` 2) 1); simpl; lia. }
  by destruct (Z.rem idx 2 =? 0), (Z.rem v 2 =? 1).
Qed.

Lemma village_pair_gender g v bs :
  0 ≤ v →
  Nat.add (length (filter (of_gender g) (map (pair v) bs)))
          (length (filter (of_gender g) (map (pair (v + 1)) bs)))
  = length bs.
Proof.
  intros Hv. induction bs as [|[idx b] bs IH]; [done|].
  cbn [map]. rewrite !filter_cons. cbn [fst snd].
  pose proof (gender_case_next_village idx v Hv) as Hflip.
  destruct g, (gender_case idx v) eqn:H1, (gender_case idx (v + 1)) eqn:H2;
    try done; repeat case_decide; try done; cbn [length]; lia.
Qed.

Lemma total_gender_even_villages g (m : nat) bs :
  length (filter (of_gender g) (cross_join (seqZ 1 (2 * Z.of_nat m)) bs))
  = (m * length bs)%nat.
Proof.
  induction m as [|m IH]; [done|].
  replace (2 * Z.of_nat (S m)) with (2 * Z.of_nat m + 2) by lia.
  rewrite seqZ_app by lia. rewrite cross_join_app, filter_app, length_app, IH.
  rewrite (seqZ_cons _ 2) by lia. rewrite (seqZ_cons _ (Z.pred 2)) by lia.
  rewrite seqZ_nil by lia.
  unfold cross_join. cbn [list_prod]. rewrite app_nil_r, filter_app, length_app.
  replace (Z.succ (1 + 2 * Z.of_nat m)) with (1 + 2 * Z.of_nat m + 1) by lia.
  rewrite (village_pair_gender g (1 + 2 * Z.of_nat m)) by lia. lia.
Qed.

Lemma total_gender_expected_rows g n base start :
  n `mod` 2 = 0 →
  total_gender g (expected_rows n base start)
  = Z.of_nat (Z.to_nat (n `div` 2) * length base).
Proof.
  intros Hn. unfold total_gender, expected_rows.
  rewrite (length_filter_imap _ (of_gender g)) by done.
  pose proof (Z.div_mod n 2 ltac:(lia)) as Hdiv. rewrite Hn in Hdiv.
  unfold villages. destruct (decide (0 ≤ n)) as [Hpos|Hneg].
  - replace (n + 1 - 1) with (2 * Z.of_nat (Z.to_nat (n `div` 2))) by lia.
    by rewrite total_gender_even_villages, base_with_idx_length.
  - rewrite seqZ_nil by lia. simpl. lia.
Qed.

End table_facts.

Section table_theorems.

Context (birth_date_serial : string → option Z) (date_of_birth : Z → string).
Context (E : env).

Lemma marriage_village_within n v c :
  n `mod` 28 = 0 → 1 ≤ v ≤ n → 1 ≤ marriage_village v c ≤ n.
Proof.
  intros Hn Hv.
  pose proof (marriage_village_bounds v c) as Hb. cbv zeta in Hb.
  pose proof (Z.div_mod n 28 ltac:(lia)) as Hdiv. rewrite Hn in Hdiv.
  pose proof (Z.div_mod (v - 1) 28 ltac:(lia)).
  pose proof (Z.mod_pos_bound (v - 1) 28 ltac:(lia)).
  lia.
Qed.

(** X13. In the table that a run has written, every village from 1 to [n]
    holds one full copy of the base dataset: exactly [B] rows of the table
    carry its id, and no row carries any other village id. *)
Theorem every_village_has_all_base_rows n w base w' :
  (Database.load_base_data birth_date_serial date_of_birth w).1 = Ok base →
  Database.generate_database birth_date_serial date_of_birth E n w
    = (Ok tt, w') →
  ∃ rows,
    read_population (db_file_name (s_username (session w)) (uuid8 E)) w'
      = Some rows ∧
    ∀ v, village_population v rows
         = if decide (1 ≤ v ≤ n) then Z.of_nat (length base) else 0.
Proof.
  intros Hload Hrun.
  exists (expected_rows n base 1). split; [by eapply generated_table|].
  intros v. apply village_population_expected_rows.
Qed.

(** X14. In the table that a run has written, the gender counts of a
    village are exact: in an odd village the MALE rows are [ceil(B/2)] and
    the FEMALE rows [floor(B/2)], in an even village the other way round. *)
Theorem village_gender_counts n w base w' :
  (Database.load_base_data birth_date_serial date_of_birth w).1 = Ok base →
  Database.generate_database birth_date_serial date_of_birth E n w
    = (Ok tt, w') →
  ∃ rows,
    read_population (db_file_name (s_username (session w)) (uuid8 E)) w'
      = Some rows ∧
    ∀ v, 1 ≤ v ≤ n →
      let B := Z.of_nat (length base) in
      if bool_decide (v `mod` 2 = 1)
      then gender_count MALE v rows = (B + 1) `div` 2 ∧
           gender_count FEMALE v rows = B `div` 2
      else gender_count MALE v rows = B `div` 2 ∧
           gender_count FEMALE v rows = (B + 1) `div` 2.
Proof.
  intros Hload Hrun.
  exists (expected_rows n base 1). split; [by eapply generated_table|].
  intros v Hv. cbv zeta. rewrite !gender_count_exact by done.
  case_bool_decide as Hodd.
  - rewrite bool_decide_eq_true_2 by done.
    rewrite bool_decide_eq_false_2; [done|]. intros [_ Hf]. by specialize (Hf Hodd).
  - rewrite bool_decide_eq_false_2 by (intros [Hf _]; by specialize (Hf eq_refl)).
    rewrite bool_decide_eq_true_2; [done|]. split; [done|]. by intros.
Qed.

(** X15. Every row of the table that a run has written is well formed: its
    integers fit the 32-bit INTEGER columns, its village id is one of 1..n,
    its counter is positive, its married-to village is what the mapping
    returns for the row's village and counter, differs from the row's own
    village and lies in the same block of 28; and when [n] is a multiple of
    28 the married-to village is again one of 1..n. *)
Theorem every_row_is_well_formed n w base w' :
  (Database.load_base_data birth_date_serial date_of_birth w).1 = Ok base →
  Database.generate_database birth_date_serial date_of_birth E n w
    = (Ok tt, w') →
  ∃ rows,
    read_population (db_file_name (s_username (session w)) (uuid8 E)) w'
      = Some rows ∧
    ∀ r, r ∈ rows →
      row_fits_int32 r = true ∧
      1 ≤ VILLAGE_ID r ≤ n ∧ 1 ≤ COUNTER r ∧
      get_marriage_to_village_id (VILLAGE_ID r) (COUNTER r)
        = Ok (MARRIED_TO_VILLAGE_ID r) ∧
      MARRIED_TO_VILLAGE_ID r ≠ VILLAGE_ID r ∧
      (MARRIED_TO_VILLAGE_ID r - 1) `div` 28 = (VILLAGE_ID r - 1) `div` 28 ∧
      (n `mod` 28 = 0 → 1 ≤ MARRIED_TO_VILLAGE_ID r ≤ n).
Proof.
  intros Hload Hrun.
  destruct (generate_database_success _ _ _ n w base w' Hload Hrun)
    as (Hfit & Hbase & _).
  exists (expected_rows n base 1). split; [by eapply generated_table|].
  intros r Hr.
  split.
  { rewrite forallb_forall in Hfit. by apply Hfit, list_elem_of_In. }
  apply list_elem_of_lookup in Hr as [k Hk].
  apply expected_rows_lookup_inv in Hk as (v & idx & b & Hv & Hb & _ & ->).
  simpl.
  assert (1 ≤ b_COUNTER b) as Hc.
  { specialize (Hbase ltac:(lia)).
    unfold valid_base in Hbase. rewrite Forall_forall in Hbase.
    apply Hbase. by eapply list_elem_of_lookup_2. }
  split; [done|]. split; [done|].
  split; [by rewrite get_marriage_valid by lia|].
  split; [apply marriage_village_neq|].
  split; [apply marriage_village_block|].
  intros Hn. by apply marriage_village_within.
Qed.

(** X16. With an even number of villages the table that a run has written
    holds as many MALE as FEMALE rows, half of the rows each. *)
Theorem overall_gender_ratio_is_even n w base w' :
  n `mod` 2 = 0 →
  (Database.load_base_data birth_date_serial date_of_birth w).1 = Ok base →
  Database.generate_database birth_date_serial date_of_birth E n w
    = (Ok tt, w') →
  ∃ rows,
    read_population (db_file_name (s_username (session w)) (uuid8 E)) w'
      = Some rows ∧
    total_gender MALE rows = total_gender FEMALE rows ∧
    2 * total_gender MALE rows = Z.of_nat (length rows).
Proof.
  intros Hn Hload Hrun.
  exists (expected_rows n base 1). split; [by eapply generated_table|].
  rewrite !total_gender_expected_rows by done. split; [done|].
  rewrite expected_rows_length.
  pose proof (Z.div_mod n 2 ltac:(lia)) as Hdiv. rewrite Hn in Hdiv.
  destruct (decide (0 ≤ n)); [|lia].
  rewrite !Nat2Z.inj_mul, !Z2Nat.id by lia. lia.
Qed.

End table_theorems.

Lemma every_village_has_all_base_rows_witness :
  let w' := (Database.generate_database no_birth_date_serial no_date_of_birth
               example_env 28 example_world).2 in
  (Database.load_base_data no_birth_date_serial no_date_of_birth example_world).1
    = Ok example_base ∧
  Database.generate_database no_birth_date_serial no_date_of_birth example_env
    28 example_world = (Ok tt, w') ∧
  ∃ rows,
    read_population
      (db_file_name (s_username (session example_world)) (uuid8 example_env)) w'
      = Some rows ∧
    ∀ v, village_population v rows
         = if decide (1 ≤ v ≤ 28) then Z.of_nat (length example_base) else 0.
Proof.
  cbv zeta.
  assert ((Database.load_base_data no_birth_date_serial no_date_of_birth
             example_world).1 = Ok example_base) as Hload by reflexivity.
  assert (Database.generate_database no_birth_date_serial no_date_of_birth
            example_env 28 example_world
          = (Ok tt, (Database.generate_database no_birth_date_serial
                       no_date_of_birth example_env 28 example_world).2))
    as Hrun by (vm_compute; reflexivity).
  split; [exact Hload|]. split; [exact Hrun|].
  exact (every_village_has_all_base_rows no_birth_date_serial no_date_of_birth
           example_env 28 example_world example_base _ Hload Hrun).
Defined.

Lemma village_gender_counts_witness :
  let w' := (Database.generate_database no_birth_date_serial no_date_of_birth
               example_env 28 example_world).2 in
  (Database.load_base_data no_birth_date_serial no_date_of_birth example_world).1
    = Ok example_base ∧
  Database.generate_database no_birth_date_serial no_date_of_birth example_env
    28 example_world = (Ok tt, w') ∧
  ∃ rows,
    read_population
      (db_file_name (s_username (session example_world)) (uuid8 example_env)) w'
      = Some rows ∧
    ∀ v, 1 ≤ v ≤ 28 →
      let B := Z.of_nat (length example_base) in
      if bool_decide (v `mod` 2 = 1)
      then gender_count MALE v rows = (B + 1) `div` 2 ∧
           gender_count FEMALE v rows = B `div` 2
      else gender_count MALE v rows = B `div` 2 ∧
           gender_count FEMALE v rows = (B + 1) `div` 2.
Proof.
  cbv zeta.
  assert ((Database.load_base_data no_birth_date_serial no_date_of_birth
             example_world).1 = Ok example_base) as Hload by reflexivity.
  assert (Database.generate_database no_birth_date_serial no_date_of_birth
            example_env 28 example_world
          = (Ok tt, (Database.generate_database no_birth_date_serial
                       no_date_of_birth example_env 28 example_world).2))
    as Hrun by (vm_compute; reflexivity).
  split; [exact Hload|]. split; [exact Hrun|].
  exact (village_gender_counts no_birth_date_serial no_date_of_birth
           example_env 28 example_world example_base _ Hload Hrun).
Defined.

Lemma every_row_is_well_formed_witness :
  let w' := (Database.generate_database no_birth_date_serial no_date_of_birth
               example_env 56 example_world).2 in
  (Database.load_base_data no_birth_date_serial no_date_of_birth example_world).1
    = Ok example_base ∧
  Database.generate_database no_birth_date_serial no_date_of_birth example_env
    56 example_world = (Ok tt, w') ∧
  ∃ rows,
    read_population
      (db_file_name (s_username (session example_world)) (uuid8 example_env)) w'
      = Some rows ∧
    ∀ r, r ∈ rows →
      row_fits_int32 r = true ∧
      1 ≤ VILLAGE_ID r ≤ 56 ∧ 1 ≤ COUNTER r ∧
      get_marriage_to_village_id (VILLAGE_ID r) (COUNTER r)
        = Ok (MARRIED_TO_VILLAGE_ID r) ∧
      MARRIED_TO_VILLAGE_ID r ≠ VILLAGE_ID r ∧
      (MARRIED_TO_VILLAGE_ID r - 1) `div` 28 = (VILLAGE_ID r - 1) `div` 28 ∧
      (56 `mod` 28 = 0 → 1 ≤ MARRIED_TO_VILLAGE_ID r ≤ 56).
Proof.
  cbv zeta.
  assert ((Database.load_base_data no_birth_date_serial no_date_of_birth
             example_world).1 = Ok example_base) as Hload by reflexivity.
  assert (Database.generate_database no_birth_date_serial no_date_of_birth
            example_env 56 example_world
          = (Ok tt, (Database.generate_database no_birth_date_serial
                       no_date_of_birth example_env 56 example_world).2))
    as Hrun by (vm_compute; reflexivity).
  split; [exact Hload|]. split; [exact Hrun|].
  exact (every_row_is_well_formed no_birth_date_serial no_date_of_birth
           example_env 56 example_world example_base _ Hload Hrun).
Defined.

Lemma overall_gender_ratio_is_even_witness :
  let w' := (Database.generate_database no_birth_date_serial no_date_of_birth
               example_env 28 example_world).2 in
  28 `mod` 2 = 0 ∧
  (Database.load_base_data no_birth_date_serial no_date_of_birth example_world).1
    = Ok example_base ∧
  Database.generate_database no_birth_date_serial no_date_of_birth example_env
    28 example_world = (Ok tt, w') ∧
  ∃ rows,
    read_population
      (db_file_name (s_username (session example_world)) (uuid8 example_env)) w'
      = Some rows ∧
    total_gender MALE rows = total_gender FEMALE rows ∧
    2 * total_gender MALE rows = Z.of_nat (length rows).
Proof.
  cbv zeta.
  assert (28 `mod` 2 = 0) as Hn by reflexivity.
  assert ((Database.load_base_data no_birth_date_serial no_date_of_birth
             example_world).1 = Ok example_base) as Hload by reflexivity.
  assert (Database.generate_database no_birth_date_serial no_date_of_birth
            example_env 28 example_world
          = (Ok tt, (Database.generate_database no_birth_date_serial
                       no_date_of_birth example_env 28 example_world).2))
    as Hrun by (vm_compute; reflexivity).
  split; [exact Hn|]. split; [exact Hload|]. split; [exact Hrun|].
  exact (overall_gender_ratio_is_even no_birth_date_serial no_date_of_birth
           example_env 28 example_world example_base _ Hn Hload Hrun).
Defined.

(** ** Loading a database from the history *)

Section history_theorems.

Local Ltac run_load :=
  unfold load_db_from_history, load_history, save_history, bind, get, modify,
    ret.

(** Loading a file that exists points the session at it, marks a database
    as generated and raises the version counter by one; the script goes on.
    The history, the database files and the log are not touched, nor are the
    other keys of the session. *)
Lemma load_existing_database path w :
  path_exists path w = true →
  ∃ w',
    load_db_from_history path w
    = (Ok (Continue, SidebarSuccess ("Loaded database: " +:+ basename path)), w') ∧
    s_db_path (session w') = Some path ∧
    s_db_generated (session w') = true ∧
    s_db_version (session w') = s_db_version (session w) + 1 ∧
    s_username (session w') = s_username (session w) ∧
    s_num_villages (session w') = s_num_villages (session w) ∧
    s_db_id (session w') = s_db_id (session w) ∧
    s_history (session w') = s_history (session w) ∧
    history_file w' = history_file w ∧ db_files w' = db_files w ∧
    log_file w' = log_file w.
Proof.
  intros Hex. run_load. cbv beta iota zeta. rewrite Hex.
  eexists. split; [reflexivity|]. by simpl.
Qed.

(** X17. Loading a file that is gone prunes the history of the user who asked:
    that user's entries for the path are removed, the user's other entries
    stay, in their order, and every other user's list is as it was, even
    where it names the same path; the script is restarted.  The session
    still points where it pointed, and a user with no history gets none. *)
Theorem load_missing_database_prunes path w :
  path_exists path w = false →
  let user := s_username (session w) in
  let h := default ∅ (history_file w) in
  ∃ w',
    load_db_from_history path w
    = (Ok (Rerun, SidebarError "Database file not found! Removing from history..."),
       w') ∧
    db_files w' = db_files w ∧ log_file w' = log_file w ∧
    s_db_path (session w') = s_db_path (session w) ∧
    s_db_generated (session w') = s_db_generated (session w) ∧
    s_db_version (session w') = s_db_version (session w) ∧
    match h !! user with
    | Some entries =>
        ∃ h', history_file w' = Some h' ∧ s_history (session w') = h' ∧
              h' !! user = Some (filter (λ e, h_db_path e ≠ path) entries) ∧
              (∀ e, e ∈ default [] (h' !! user) → h_db_path e ≠ path) ∧
              (∀ u, u ≠ user → h' !! u = h !! u)
    | None => w' = w
    end.
Proof.
  intros Hex user h. run_load. cbv beta iota zeta. rewrite Hex.
  fold user h. destruct (h !! user) as [entries|] eqn:Hentries.
  - eexists. split; [reflexivity|]. simpl. repeat split; try done.
    eexists. split; [done|]. split; [done|].
    rewrite lookup_insert_eq. split; [done|]. split.
    + simpl. by intros e [He _]%list_elem_of_filter.
    + intros u Hu. by apply lookup_insert_ne.
  - eexists. split; [reflexivity|]. by simpl.
Qed.

Lemma load_missing_database_prunes_witness :
  path_exists "villages_admin_0000bbbb.db" history_world = false ∧
  let user := s_username (session history_world) in
  let h := default ∅ (history_file history_world) in
  ∃ w',
    load_db_from_history "villages_admin_0000bbbb.db" history_world
    = (Ok (Rerun, SidebarError "Database file not found! Removing from history..."),
       w') ∧
    db_files w' = db_files history_world ∧
    log_file w' = log_file history_world ∧
    s_db_path (session w') = s_db_path (session history_world) ∧
    s_db_generated (session w') = s_db_generated (session history_world) ∧
    s_db_version (session w') = s_db_version (session history_world) ∧
    match h !! user with
    | Some entries =>
        ∃ h', history_file w' = Some h' ∧ s_history (session w') = h' ∧
              h' !! user
              = Some (filter (λ e, h_db_path e ≠ "villages_admin_0000bbbb.db")
                        entries) ∧
              (∀ e, e ∈ default [] (h' !! user) →
                    h_db_path e ≠ "villages_admin_0000bbbb.db") ∧
              (∀ u, u ≠ user → h' !! u = h !! u)
    | None => w' = history_world
    end.
Proof.
  assert (path_exists "villages_admin_0000bbbb.db" history_world = false)
    as Hex by reflexivity.
  split; [exact Hex|].
  exact (load_missing_database_prunes "villages_admin_0000bbbb.db"
           history_world Hex).
Defined.

Lemma load_missing_database_run path w :
  path_exists path w = false →
  load_db_from_history path w
  = (Ok (Rerun, SidebarError "Database file not found! Removing from history..."),
     match default ∅ (history_file w) !! s_username (session w) with
     | Some entries =>
         let h' := <[s_username (session w)
                     := filter (λ e, h_db_path e ≠ path) entries]>
                     (default ∅ (history_file w)) in
         let s := session w in
         set_session (SessionState (s_username s) (s_db_path s)
                        (s_db_generated s) (s_db_version s) (s_num_villages s)
                        (s_db_id s) h')
           (set_history_file (Some h') w)
     | None => w
     end).
Proof.
  intros Hex. run_load. cbv beta iota zeta. rewrite Hex.
  by destruct (default ∅ (history_file w) !! s_username (session w)).
Qed.

Lemma load_missing_database_store path w :
  path_exists path w = false →
  (load_db_from_history path w).2
  = match default ∅ (history_file w) !! s_username (session w) with
    | Some entries =>
        let h' := <[s_username (session w)
                    := filter (λ e, h_db_path e ≠ path) entries]>
                    (default ∅ (history_file w)) in
        let s := session w in
        set_session (SessionState (s_username s) (s_db_path s)
                       (s_db_generated s) (s_db_version s) (s_num_villages s)
                       (s_db_id s) h')
          (set_history_file (Some h') w)
    | None => w
    end.
Proof. intros Hex. by rewrite load_missing_database_run. Qed.

(** X18. Pruning is idempotent: asking again for the same missing file
    changes nothing more. *)
Theorem load_missing_database_twice path w :
  path_exists path w = false →
  let w1 := (load_db_from_history path w).2 in
  path_exists path w1 = false ∧ (load_db_from_history path w1).2 = w1.
Proof.
  intros Hex. cbv zeta. rewrite (load_missing_database_store path w Hex).
  destruct (default ∅ (history_file w) !! s_username (session w))
    as [entries|] eqn:Hentries.
  2:{ split; [done|]. rewrite load_missing_database_store by done.
      by rewrite Hentries. }
  cbv zeta.
  set (user := s_username (session w)) in *.
  set (h' := <[user := filter (λ e, h_db_path e ≠ path) entries]>
               (default ∅ (history_file w))).
  assert (path_exists path
            (set_session (SessionState user (s_db_path (session w))
                            (s_db_generated (session w))
                            (s_db_version (session w))
                            (s_num_villages (session w))
                            (s_db_id (session w)) h')
               (set_history_file (Some h') w)) = false) as Hex1.
  { destruct (history_file w) as [h0|] eqn:Hh0; [|done].
    revert Hex. unfold path_exists. simpl. rewrite Hh0.
    by repeat case_decide. }
  split; [done|].
  rewrite load_missing_database_store by done. simpl.
  unfold h' at 1. rewrite lookup_insert_eq. cbv zeta.
  assert (<[user := filter (λ e, h_db_path e ≠ path)
                      (filter (λ e, h_db_path e ≠ path) entries)]> h' = h')
    as ->.
  { unfold h'. rewrite insert_insert_eq. f_equal.
    rewrite list_filter_filter. apply list_filter_iff. intros e. tauto. }
  by destruct w.
Qed.

Lemma load_missing_database_twice_witness :
  path_exists "villages_admin_0000bbbb.db" history_world = false ∧
  let w1 := (load_db_from_history "villages_admin_0000bbbb.db" history_world).2 in
  path_exists "villages_admin_0000bbbb.db" w1 = false ∧
  (load_db_from_history "villages_admin_0000bbbb.db" w1).2 = w1.
Proof.
  assert (path_exists "villages_admin_0000bbbb.db" history_world = false)
    as Hex by reflexivity.
  split; [exact Hex|].
  exact (load_missing_database_twice "villages_admin_0000bbbb.db"
           history_world Hex).
Defined.

End history_theorems.

(** ** Generating, losing the file, loading again *)

Section lost_database.

Context (birth_date_serial : string → option Z) (date_of_birth : Z → string).
Context (E : env).

(** X19. When the file of a generation that has returned is removed and
    the user then asks for it, the entry the run had appended to the ledger
    is taken out again: the user's list is the one from before the run
    (without entries for that same path), every other user's list never
    changed, and the script is restarted. *)
Theorem lost_database_is_forgotten n w w1 :
  Database.generate_database birth_date_serial date_of_birth E n w = (Ok tt, w1) →
  let user := s_username (session w) in
  let path := db_file_name user (uuid8 E) in
  let h := default ∅ (history_file w) in
  ∃ w3 h3,
    load_db_from_history path (os_remove path w1)
    = (Ok (Rerun, SidebarError "Database file not found! Removing from history..."),
       w3) ∧
    history_file w3 = Some h3 ∧
    h3 !! user = Some (filter (λ e, h_db_path e ≠ path) (default [] (h !! user))) ∧
    (∀ u, u ≠ user → h3 !! u = h !! u) ∧
    db_files w3 !! path = None.
Proof.
  intros Hrun user path h.
  destruct (generate_database_ok_inv _ _ _ _ _ _ Hrun)
    as (_ & base & Hload & _).
  destruct (generate_database_success _ _ _ n w base w1 Hload Hrun)
    as (_ & _ & Hdb & Hh & Hs & _).
  fold user path h in Hdb, Hh, Hs.
  assert (os_remove path w1 = set_db_files (delete path (db_files w1)) w1)
    as Hrm by apply os_remove_db.
  assert (path_exists path (os_remove path w1) = false) as Hex.
  { rewrite Hrm. unfold path. rewrite path_exists_db. simpl.
    rewrite lookup_delete_eq. apply bool_decide_eq_false_2. by intros [??]. }
  rewrite (load_missing_database_run _ _ Hex). rewrite Hrm. simpl.
  rewrite Hh, Hs. simpl. rewrite lookup_insert_eq. cbv zeta.
  eexists _, _. split; [reflexivity|]. simpl.
  split; [done|]. rewrite lookup_insert_eq, insert_insert_eq.
  split; [|split].
  - f_equal. rewrite filter_app, filter_cons_False, filter_nil by (simpl; tauto).
    by rewrite app_nil_r.
  - intros u Hu. by rewrite lookup_insert_ne.
  - apply lookup_delete_eq.
Qed.

(** X20. The database of a generation that has returned can be loaded from
    the history: the file is found, the script goes on, the session still
    points at the file and its version counter is two above the one before
    the run (one step for the generation, one for the load); the load
    changes neither the ledger nor any database file. *)
Theorem fresh_database_loads n w w1 :
  Database.generate_database birth_date_serial date_of_birth E n w = (Ok tt, w1) →
  let path := db_file_name (s_username (session w)) (uuid8 E) in
  ∃ w2,
    load_db_from_history path w1
    = (Ok (Continue, SidebarSuccess ("Loaded database: " +:+ basename path)), w2) ∧
    s_db_path (session w2) = Some path ∧
    s_db_generated (session w2) = true ∧
    s_db_version (session w2) = s_db_version (session w) + 2 ∧
    history_file w2 = history_file w1 ∧ s_history (session w2) = s_history (session w1) ∧
    db_files w2 = db_files w1.
Proof.
  intros Hrun path.
  destruct (generate_database_ok_inv _ _ _ _ _ _ Hrun)
    as (_ & base & Hload & _).
  destruct (generate_database_success _ _ _ n w base w1 Hload Hrun)
    as (_ & _ & Hdb & _ & Hs & _).
  fold path in Hdb, Hs.
  assert (path_exists path w1 = true) as Hex.
  { unfold path. rewrite path_exists_db. fold path.
    rewrite Hdb, lookup_insert_eq. by apply bool_decide_eq_true_2. }
  destruct (load_existing_database path w1 Hex)
    as (w2 & Hload2 & Hp & Hg & Hv & _ & _ & _ & Hsh & Hh & Hd & _).
  exists w2. split; [done|].
  split; [done|]. split; [done|].
  split; [rewrite Hv, Hs; simpl; lia|]. by repeat split.
Qed.

End lost_database.

Lemma lost_database_is_forgotten_witness :
  let w1 := (Database.generate_database no_birth_date_serial no_date_of_birth
               example_env 28 history_world).2 in
  Database.generate_database no_birth_date_serial no_date_of_birth example_env
    28 history_world = (Ok tt, w1) ∧
  let user := s_username (session history_world) in
  let path := db_file_name user (uuid8 example_env) in
  let h := default ∅ (history_file history_world) in
  ∃ w3 h3,
    load_db_from_history path (os_remove path w1)
    = (Ok (Rerun, SidebarError "Database file not found! Removing from history..."),
       w3) ∧
    history_file w3 = Some h3 ∧
    h3 !! user = Some (filter (λ e, h_db_path e ≠ path) (default [] (h !! user))) ∧
    (∀ u, u ≠ user → h3 !! u = h !! u) ∧
    db_files w3 !! path = None.
Proof.
  cbv zeta.
  assert (Database.generate_database no_birth_date_serial no_date_of_birth
            example_env 28 history_world
          = (Ok tt, (Database.generate_database no_birth_date_serial
                       no_date_of_birth example_env 28 history_world).2))
    as Hrun by (vm_compute; reflexivity).
  split; [exact Hrun|].
  exact (lost_database_is_forgotten no_birth_date_serial no_date_of_birth
           example_env 28 history_world _ Hrun).
Defined.

(** ** Deleting entries of the activity log *)

Section log_theorems.

Context {J : Type} (dumps : J → string).

Abbreviation delete_entries := (delete_log_entries dumps).

Lemma read_logs_json_lines (l : list J) :
  read_logs (JsonLine <$> l) = l.
Proof.
  unfold read_logs. induction l as [|e l IH]; [done|].
  rewrite fmap_cons. cbn [omap list_omap]. by f_equal.
Qed.

Lemma selected_dump (es : list J) e :
  dumps e ∈ (list_to_set (dumps <$> es) : gset string)
  ↔ ∃ e', e' ∈ es ∧ dumps e' = dumps e.
Proof.
  rewrite elem_of_list_to_set, list_elem_of_fmap.
  split; intros (x & H1 & H2); exists x; by split.
Qed.

(** X21. What [delete_log_entries] leaves in the log.  A log file that does
    not exist is not created.  Otherwise the file is rewritten with JSON
    lines only (blank and malformed lines are lost); an entry stays exactly
    when it was readable and its sorted-keys dump differs from the dump of
    every selected entry, so every copy of a selected entry goes; and the
    entries that stay keep their order. *)
Theorem delete_log_entries_keeps_the_rest (es : list J) log :
  match log with
  | None => delete_log_entries dumps es log = None
  | Some lines =>
      ∃ kept,
        delete_log_entries dumps es log = Some (JsonLine <$> kept) ∧
        (∀ e, e ∈ kept ↔
              e ∈ read_logs lines ∧ ∀ e', e' ∈ es → dumps e' ≠ dumps e) ∧
        sublist kept (read_logs lines)
  end.
Proof.
  destruct log as [lines|]; [|done].
  eexists. split; [reflexivity|]. split.
  - intros e. rewrite list_elem_of_filter, selected_dump.
    split; intros [H1 H2]; (split; [|done]) || (split; [done|]).
    + intros e' He' Heq. apply H1. by exists e'.
    + intros (e' & He' & Heq). by apply (H2 e').
  - apply sublist_filter.
Qed.

(** X22. Deleting is idempotent and two deletions in a row amount to one
    deletion of both selections. *)
Theorem delete_log_entries_composes (es1 es2 : list J) log :
  delete_log_entries dumps es1 (delete_log_entries dumps es1 log)
  = delete_log_entries dumps es1 log ∧
  delete_log_entries dumps es2 (delete_log_entries dumps es1 log)
  = delete_log_entries dumps (es1 ++ es2) log.
Proof.
  assert (∀ a b, delete_entries b (delete_entries a log)
                 = delete_entries (a ++ b) log) as Hcomp.
  { intros a b. destruct log as [lines|]; [|done].
    unfold delete_log_entries. rewrite read_logs_json_lines.
    do 2 f_equal. rewrite list_filter_filter. apply list_filter_iff.
    intros e. rewrite !elem_of_list_to_set, fmap_app, elem_of_app. tauto. }
  split; [|apply Hcomp]. rewrite Hcomp.
  destruct log as [lines|]; [|done]. unfold delete_log_entries.
  do 2 f_equal. apply list_filter_iff. intros e.
  rewrite !elem_of_list_to_set, fmap_app, elem_of_app. tauto.
Qed.

End log_theorems.

Lemma fresh_database_loads_witness :
  let w1 := (Database.generate_database no_birth_date_serial no_date_of_birth
               example_env 28 history_world).2 in
  Database.generate_database no_birth_date_serial no_date_of_birth example_env
    28 history_world = (Ok tt, w1) ∧
  let path := db_file_name (s_username (session history_world))
                (uuid8 example_env) in
  ∃ w2,
    load_db_from_history path w1
    = (Ok (Continue, SidebarSuccess ("Loaded database: " +:+ basename path)), w2) ∧
    s_db_path (session w2) = Some path ∧
    s_db_generated (session w2) = true ∧
    s_db_version (session w2) = s_db_version (session history_world) + 2 ∧
    history_file w2 = history_file w1 ∧
    s_history (session w2) = s_history (session w1) ∧
    db_files w2 = db_files w1.
Proof.
  cbv zeta.
  assert (Database.generate_database no_birth_date_serial no_date_of_birth
            example_env 28 history_world
          = (Ok tt, (Database.generate_database no_birth_date_serial
                       no_date_of_birth example_env 28 history_world).2))
    as Hrun by (vm_compute; reflexivity).
  split; [exact Hrun|].
  exact (fresh_database_loads no_birth_date_serial no_date_of_birth
           example_env 28 history_world _ Hrun).
Defined.
